(** * Verification of the TIKE tutorial notebooks

    The notebooks are sequences of cells calling into numpy, astropy,
    sklearn and lightkurve.  The few pieces of logic written in the notebooks
    themselves are embedded here cell by cell:

    - [Lightcurves]   : [aperture_phot] and the cell opening the FITS files
                        (notebooks/01-lightcurves/01-Lightcurves.ipynb);
    - [Lesson0]       : the scoped FITS access of the first lesson;
    - [Classify]      : the [stella] import cell, [remove_nans] and the
                        filtering cell, [plot_confusion_matrix], the target
                        loop and the quality-check loop
                        (notebooks/05-classify-with-ml/05-classify-with-ml.ipynb).

    Library calls are modelled by their documented behaviour in [Py] and [Np].
    Floating-point numbers are modelled as exact rationals extended with the
    IEEE special values; rounding is outside the model. *)

From Stdlib Require Import String Bool Arith ZArith QArith Qfield Lia List Sorted.
Import ListNotations.

Set Implicit Arguments.
Close Scope Q_scope.
Open Scope nat_scope.

(* ===================================================================== *)
(** ** Python: exceptions and results                                     *)
(* ===================================================================== *)

Module Py.

Inductive exn :=
| IndexError
| ValueError
| TypeError
| AttributeError
| ImportError
| SyntaxError
| OtherError (msg : string).

Inductive result (A : Type) :=
| Ok (a : A)
| Raise (e : exn).
Arguments Ok {A} a.
Arguments Raise {A} e.

Definition bind {A B} (r : result A) (k : A -> result B) : result B :=
  match r with
  | Ok a => k a
  | Raise e => Raise e
  end.

(** Computations over a state [S] that may raise; the state reached
    when the exception is raised is kept. *)
Definition St (S A : Type) := S -> result A * S.

Definition ret {S A} (a : A) : St S A := fun s => (Ok a, s).

Definition raise {S A} (e : exn) : St S A := fun s => (Raise e, s).

Definition lift {S A} (r : result A) : St S A := fun s => (r, s).

Definition sbind {S A B} (c : St S A) (k : A -> St S B) : St S B :=
  fun s =>
    match c s with
    | (Ok a, s') => k a s'
    | (Raise e, s') => (Raise e, s')
    end.

(** [try: body  except: handler] with a bare [except], which catches
    every exception. *)
Definition try_except {S A} (body handler : St S A) : St S A :=
  fun s =>
    match body s with
    | (Ok a, s') => (Ok a, s')
    | (Raise _, s') => handler s'
    end.

(** [for x in xs: body] over a list. *)
Fixpoint for_each {S A} (xs : list A) (body : A -> St S unit) : St S unit :=
  match xs with
  | [] => ret tt
  | x :: xs' => sbind (body x) (fun _ => for_each xs' body)
  end.

(** [[f(x) for x in xs]]: the loop appends to the list being built. *)
Definition collect_body {A B} (f : A -> result B) (x : A) : St (list B) unit :=
  fun out =>
    match f x with
    | Ok b => (Ok tt, out ++ [b])
    | Raise e => (Raise e, out)
    end.

Definition comprehension {A B} (f : A -> result B) (xs : list A) : result (list B) :=
  match for_each xs (collect_body f) [] with
  | (Ok _, out) => Ok out
  | (Raise e, _) => Raise e
  end.

(** [range(n)] and [enumerate(xs)]. *)
Definition range (n : nat) : list nat := seq 0 n.
Definition enumerate {A} (xs : list A) : list (nat * A) :=
  combine (seq 0 (length xs)) xs.

(** The iterator protocol behind the [for] statement: [next] gives the
    next item and the advanced iterator, or nothing (StopIteration). *)
Record iterator (A : Type) := mk_iterator {
  it_state : Type;
  it_start : it_state;
  it_next : it_state -> option (A * it_state)
}.

Definition iter_list {A} (xs : list A) : iterator A :=
  {| it_state := list A;
     it_start := xs;
     it_next := fun s => match s with [] => None | x :: s' => Some (x, s') end |}.

Definition iter_range (n : nat) : iterator nat :=
  {| it_state := nat;
     it_start := 0;
     it_next := fun i => if i <? n then Some (i, S i) else None |}.

(** An iterator that never stops ([itertools.count]), for comparison. *)
Definition iter_count : iterator nat :=
  {| it_state := nat; it_start := 0; it_next := fun i => Some (i, S i) |}.

(** The [for] statement run for at most [fuel] calls of [next]; [None]
    when the calls are used up before the iterator stops. *)
Fixpoint for_steps {W A} (fuel : nat) (it : iterator A) (st : it_state it)
  (body : A -> St W unit) (w : W) : option (result unit * W) :=
  match fuel with
  | 0 => None
  | S fuel' =>
      match it_next it st with
      | None => Some (Ok tt, w)
      | Some (x, st') =>
          match body x w with
          | (Ok _, w') => for_steps fuel' it st' body w'
          | (Raise e, w') => Some (Raise e, w')
          end
      end
  end.

(** [for x in it: body]. *)
Definition for_stmt {W A} (fuel : nat) (it : iterator A)
  (body : A -> St W unit) : W -> option (result unit * W) :=
  for_steps fuel it (it_start it) body.

End Py.

Notation "x <- c1 ;; c2" := (Py.bind c1 (fun x => c2))
  (at level 61, c1 at next level, right associativity).
Notation "x <~ c1 ;; c2" := (Py.sbind c1 (fun x => c2))
  (at level 61, c1 at next level, right associativity).

(* ===================================================================== *)
(** ** numpy: floats, arrays, boolean-mask indexing, reductions           *)
(* ===================================================================== *)

Module Np.
Import Py.

(** A numpy float: a number or one of the IEEE special values. *)
Inductive npfloat :=
| Finite (q : Q)
| PosInf
| NegInf
| NaN.

Definition of_Z (z : Z) : npfloat := Finite (inject_Z z).

Definition isnan (x : npfloat) : bool :=
  match x with NaN => true | _ => false end.

Definition isfinite (x : npfloat) : bool :=
  match x with Finite _ => true | _ => false end.

(** [x == c] for a scalar [c]; comparisons with NaN are false. *)
Definition feqb (x : npfloat) (c : Q) : bool :=
  match x with Finite q => Qeq_bool q c | _ => false end.

(** [x > c]. *)
Definition fgtb (x : npfloat) (c : Q) : bool :=
  match x with
  | Finite q => negb (Qle_bool q c)
  | PosInf => true
  | NegInf | NaN => false
  end.

Definition fadd (x y : npfloat) : npfloat :=
  match x, y with
  | NaN, _ | _, NaN => NaN
  | Finite a, Finite b => Finite (a + b)
  | PosInf, NegInf | NegInf, PosInf => NaN
  | PosInf, _ | _, PosInf => PosInf
  | NegInf, _ | _, NegInf => NegInf
  end.

(** IEEE division, as numpy performs it on float arrays (a zero divisor
    gives nan or an infinity together with a RuntimeWarning, no exception). *)
Definition fdiv (x y : npfloat) : npfloat :=
  match x, y with
  | NaN, _ | _, NaN => NaN
  | Finite a, Finite b =>
      if Qeq_bool b 0 then
        if Qeq_bool a 0 then NaN
        else if Qle_bool 0 a then PosInf else NegInf
      else Finite (a / b)
  | Finite _, _ => Finite 0
  | _, Finite b =>
      match x with
      | PosInf => if Qle_bool 0 b then PosInf else NegInf
      | _ => if Qle_bool 0 b then NegInf else PosInf
      end
  | _, _ => NaN
  end.

(** [x < y]. *)
Definition fltb (x y : npfloat) : bool :=
  match x, y with
  | NaN, _ | _, NaN => false
  | Finite a, Finite b => negb (Qle_bool b a)
  | NegInf, NegInf => false
  | NegInf, _ => true
  | _, PosInf => match x with PosInf => false | _ => true end
  | _, _ => false
  end.

(** [np.maximum]: NaN propagates. *)
Definition fmax (x y : npfloat) : npfloat :=
  match x, y with
  | NaN, _ | _, NaN => NaN
  | _, _ => if fltb x y then y else x
  end.

(** An n-dimensional array: its shape and its elements in row-major
    (C) order. *)
Record ndarray (A : Type) := mk_ndarray {
  shape : list nat;
  data : list A
}.

Definition size_of (sh : list nat) : nat := fold_right Nat.mul 1 sh.

Definition wf {A} (a : ndarray A) : Prop :=
  length (data a) = size_of (shape a).

Definition shape_eqb (s1 s2 : list nat) : bool :=
  if list_eq_dec Nat.eq_dec s1 s2 then true else false.

(** Elementwise operations keep the shape. *)
Definition amap {A B} (f : A -> B) (a : ndarray A) : ndarray B :=
  {| shape := shape a; data := map f (data a) |}.

(** [a == c]. *)
Definition eq_scalar (a : ndarray npfloat) (c : Q) : ndarray bool :=
  amap (fun x => feqb x c) a.

(** [np.isnan(a)], [np.isfinite(a)]. *)
Definition np_isnan (a : ndarray npfloat) : ndarray bool := amap isnan a.
Definition np_isfinite (a : ndarray npfloat) : ndarray bool := amap isfinite a.

(** The elements of [l] whose mask bit is set, in order. *)
Fixpoint select {A} (l : list A) (m : list bool) : list A :=
  match l, m with
  | x :: l', b :: m' => if b then x :: select l' m' else select l' m'
  | _, _ => []
  end.

(** [a[mask]] for a boolean [mask] with as many dimensions as [a]: the
    shapes must agree (IndexError otherwise); the result is the
    one-dimensional array of the selected elements in row-major order. *)
Definition getitem_mask {A} (a : ndarray A) (mask : ndarray bool)
  : result (ndarray A) :=
  if shape_eqb (shape a) (shape mask) then
    let sel := select (data a) (data mask) in
    Ok {| shape := [length sel]; data := sel |}
  else Raise IndexError.

(** The sum of a sequence of floats, [0.0] for no element. *)
Definition sum_list (l : list npfloat) : npfloat := fold_left fadd l (Finite 0).

(** [np.sum(a)]: the reduction by addition over all the elements. *)
Definition np_sum (a : ndarray npfloat) : npfloat := sum_list (data a).

(** [np.all(a)]. *)
Definition np_all (a : ndarray bool) : bool := forallb (fun b => b) (data a).

(** [len(a)]: the extent of the first axis (TypeError for a 0-d array). *)
Definition len {A} (a : ndarray A) : result nat :=
  match shape a with
  | [] => Raise TypeError
  | n :: _ => Ok n
  end.

(** The [k]-th block of [n] consecutive elements. *)
Definition chunk {A} (n k : nat) (d : list A) : list A :=
  firstn n (skipn (k * n) d).

(** [np.shape(a)[0]]. *)
Definition shape0 {A} (a : ndarray A) : result nat :=
  match shape a with
  | [] => Raise IndexError
  | n :: _ => Ok n
  end.

(** [a[k]]: the [k]-th sub-array along the first axis. *)
Definition getitem_row {A} (a : ndarray A) (k : nat) : result (ndarray A) :=
  match shape a with
  | [] => Raise IndexError
  | n :: sh =>
      if k <? n then Ok {| shape := sh; data := chunk (size_of sh) k (data a) |}
      else Raise IndexError
  end.

(** [a[k, :, :]]: the same sub-array; the array needs three axes. *)
Definition getitem_k_all_all {A} (a : ndarray A) (k : nat) : result (ndarray A) :=
  match shape a with
  | _ :: _ :: _ :: _ => getitem_row a k
  | _ => Raise IndexError
  end.

(** [a[idx]] for a list of indices along the first axis (fancy
    indexing): the chosen sub-arrays, in the order of [idx]. *)
Fixpoint take_rows_data {A} (a : ndarray A) (idx : list nat) : result (list A) :=
  match idx with
  | [] => Ok []
  | k :: idx' =>
      r <- getitem_row a k ;;
      rest <- take_rows_data a idx' ;;
      Ok (data r ++ rest)
  end.

Definition getitem_list {A} (a : ndarray A) (idx : list nat) : result (ndarray A) :=
  match shape a with
  | [] => Raise IndexError
  | _ :: sh =>
      d <- take_rows_data a idx ;;
      Ok {| shape := length idx :: sh; data := d |}
  end.

(** The flat (row-major) offsets at which [mask] holds. *)
Definition offsets_where (mask : ndarray bool) : list nat :=
  filter (fun k => nth k (data mask) false) (seq 0 (length (data mask))).

(** The element at a flat offset. *)
Definition flat {A} (d : A) (a : ndarray A) (k : nat) : A := nth k (data a) d.

(** The rows of a two-dimensional array. *)
Definition rows {A} (a : ndarray A) : list (list A) :=
  match shape a with
  | [r; c] => map (fun i => chunk c i (data a)) (seq 0 r)
  | _ => []
  end.

(** [a / a.sum(axis=1)[:, np.newaxis]]: every element divided by the
    sum of its row. *)
Definition div_by_row_sums (a : ndarray npfloat) : ndarray npfloat :=
  {| shape := shape a;
     data := concat (map (fun row => map (fun x => fdiv x (sum_list row)) row)
                         (rows a)) |}.

(** [a.max()]: ValueError for an array without elements. *)
Definition np_max (a : ndarray npfloat) : result npfloat :=
  match data a with
  | [] => Raise ValueError
  | x :: l => Ok (fold_left fmax l x)
  end.

(** [a[i, j]] of a two-dimensional array. *)
Definition getitem2 {A} (a : ndarray A) (i j : nat) : result A :=
  match shape a with
  | [r; c] =>
      if (i <? r) && (j <? c) then
        match nth_error (data a) (i * c + j) with
        | Some x => Ok x
        | None => Raise IndexError
        end
      else Raise IndexError
  | _ => Raise IndexError
  end.

End Np.

(* ===================================================================== *)
(** ** The object store: arrays are objects passed by reference           *)
(* ===================================================================== *)

Module Store.
Import Py Np.

Inductive obj :=
| FloatArray (a : ndarray npfloat)
| BoolArray (a : ndarray bool).

(** A reference is the position of the object in the store. *)
Definition ref := nat.
Definition heap := list obj.

(** Computations that read and extend the store and may raise. *)
Definition M (A : Type) := St heap A.

Definition alloc (o : obj) : M ref :=
  fun h => (Ok (length h), h ++ [o]).

Definition get_float (r : ref) : M (ndarray npfloat) :=
  fun h =>
    match nth_error h r with
    | Some (FloatArray a) => (Ok a, h)
    | _ => (Raise TypeError, h)
    end.

Definition get_bool (r : ref) : M (ndarray bool) :=
  fun h =>
    match nth_error h r with
    | Some (BoolArray a) => (Ok a, h)
    | _ => (Raise TypeError, h)
    end.

End Store.

Module NpRef.
Import Py Np Store.

(** [a == c]: a new boolean array. *)
Definition np_eq (a : ref) (c : Q) : M ref :=
  x <~ get_float a ;;
  alloc (BoolArray (eq_scalar x c)).

(** [a[mask]]: a new one-dimensional array. *)
Definition np_getitem_mask (a mask : ref) : M ref :=
  x <~ get_float a ;;
  m <~ get_bool mask ;;
  sel <~ lift (getitem_mask x m) ;;
  alloc (FloatArray sel).

(** [np.sum(a)]: a scalar. *)
Definition np_sum (a : ref) : M npfloat :=
  x <~ get_float a ;;
  ret (Np.np_sum x).

End NpRef.

(* ===================================================================== *)
(** ** astropy.io.fits: file handles                                      *)
(* ===================================================================== *)

Module Fits.
Import Py.

(** A handle is the number of the open call that made it. *)
Abbreviation handle := nat (only parsing).

(** What the disk holds: the paths that open as FITS files, the number
    of HDUs of each, and whether the header of an extension carries a
    usable WCS. *)
Record disk := {
  readable : string -> bool;
  n_hdus : string -> nat;
  has_wcs : string -> nat -> bool
}.

(** The kernel's file state: the handles that are open, each with the
    path it reads, and the number of handles created so far. *)
Record kernel := {
  open_handles : list (handle * string);
  created : nat
}.

Definition K (A : Type) := St kernel A.

Definition is_open (h : handle) (k : kernel) : bool :=
  existsb (fun e => fst e =? h) (open_handles k).

Definition path_of (h : handle) (k : kernel) : option string :=
  option_map snd (find (fun e => fst e =? h) (open_handles k)).

(** [fits.open(path)]. *)
Definition fits_open (d : disk) (path : string) : K handle :=
  fun k =>
    if readable d path then
      (Ok (created k),
       {| open_handles := open_handles k ++ [(created k, path)];
          created := S (created k) |})
    else (Raise (OtherError "FileNotFoundError"), k).

(** [hdulist.close()]. *)
Definition close (h : handle) : K unit :=
  fun k =>
    (Ok tt,
     {| open_handles := filter (fun e => negb (fst e =? h)) (open_handles k);
        created := created k |}).

(** [with fits.open(path) as hdulist: body]: the handle is closed when
    the block is left, normally or by an exception. *)
Definition with_open {A} (d : disk) (path : string) (body : handle -> K A) : K A :=
  fun k =>
    match fits_open d path k with
    | (Raise e, k1) => (Raise e, k1)
    | (Ok h, k1) =>
        let (r, k2) := body h k1 in
        (r, snd (close h k2))
    end.

(** [fits.info(path)]: opens the file, prints the summary, closes it. *)
Definition info (d : disk) (path : string) : K unit :=
  with_open d path (fun _ => ret tt).

(** What is read out of a file. *)
Inductive value :=
| HduData (path : string) (ext : nat)
| HduHeader (path : string) (ext : nat)
| Wcs (path : string) (ext : nat).

(** [hdulist[i]]: the extension [i] of an open file. *)
Definition getitem (d : disk) (h : handle) (i : nat) : K (string * nat) :=
  fun k =>
    match path_of h k with
    | None => (Raise ValueError, k)
    | Some p => if i <? n_hdus d p then (Ok (p, i), k) else (Raise IndexError, k)
    end.

(** [WCS(header)]. *)
Definition make_wcs (d : disk) (hdu : string * nat) : K value :=
  if has_wcs d (fst hdu) (snd hdu) then ret (Wcs (fst hdu) (snd hdu))
  else raise ValueError.

(** Handles are numbered in the order of their creation. *)
Definition kernel_ok (k : kernel) : Prop :=
  Forall (fun e => fst e < created k) (open_handles k).

(** A cell keeps its file access scoped when no handle is open after it
    that was not open before. *)
Definition scoped {A} (cell : K A) : Prop :=
  forall k h, is_open h (snd (cell k)) = true -> is_open h k = true.

End Fits.

(* ===================================================================== *)
(** ** notebooks/01-lightcurves/01-Lightcurves.ipynb                      *)
(* ===================================================================== *)

Module Lightcurves.
Import Py Np Store NpRef.

(** [def aperture_phot(image, aperture):
       flux = np.sum(image[aperture==1])
       return flux] *)
Definition aperture_phot (image aperture : ref) : M npfloat :=
  mask <~ np_eq aperture 1 ;;
  sel <~ np_getitem_mask image mask ;;
  flux <~ np_sum sel ;;
  ret flux.

(** The sum, in increasing order of the offsets [ks], of the elements of
    [img] at these offsets. *)
Definition sum_at (img : ndarray npfloat) (ks : list nat) : npfloat :=
  sum_list (map (flat NaN img) ks).

(** The offsets of the aperture: where [aperture] equals 1. *)
Definition aperture_offsets (ap : ndarray npfloat) : list nat :=
  offsets_where (eq_scalar ap 1).

(** [flux = np.array(list(map(lambda x: aperture_phot(x, aperture),
                              pix['FLUX'])))]: one sum per frame. *)
Definition phot_body (aperture : ref) (x : ref) : St (heap * list npfloat) unit :=
  fun st =>
    match aperture_phot x aperture (fst st) with
    | (Ok f, h') => (Ok tt, (h', snd st ++ [f]))
    | (Raise e, h') => (Raise e, (h', snd st))
    end.

Definition cell_flux (frames : list ref) (aperture : ref) : M (list npfloat) :=
  fun h =>
    match for_each frames (phot_body aperture) (h, []) with
    | (Ok _, st) => (Ok (snd st), fst st)
    | (Raise e, st) => (Raise e, fst st)
    end.

Import Fits.

(** The cell that downloads the two products and opens them:
    [fits.info(lc_file); lc_fits = fits.open(lc_file); print();
     fits.info(tp_file); tp_fits = fits.open(tp_file)].
    The paths come from [Observations.download_products]. *)
Definition cell_open_products (d : disk) (lc_file tp_file : string)
  : K (handle * handle) :=
  _ <~ info d lc_file ;;
  lc_fits <~ fits_open d lc_file ;;
  _ <~ info d tp_file ;;
  tp_fits <~ fits_open d tp_file ;;
  ret (lc_fits, tp_fits).

(** A later cell: [lc = lc_fits[1].data]. *)
Definition cell_read_lightcurve (d : disk) (lc_fits : handle) : K value :=
  hdu <~ getitem d lc_fits 1 ;;
  ret (HduData (fst hdu) (snd hdu)).

End Lightcurves.

(* ===================================================================== *)
(** ** Lesson 0: working on TIKE with cloud data                          *)
(* ===================================================================== *)

Module Lesson0.
Import Py Fits.

(** [with fits.open(fits_file, mode = "readonly") as hdulist:
        image = hdulist[1].data
        header = hdulist[1].header
        wcs = WCS(header)] *)
Definition cell_open_image (d : disk) (fits_file : string)
  : K (value * value * value) :=
  with_open d fits_file (fun hdulist =>
    hdu <~ getitem d hdulist 1 ;;
    let image := HduData (fst hdu) (snd hdu) in
    hdu' <~ getitem d hdulist 1 ;;
    let header := HduHeader (fst hdu') (snd hdu') in
    wcs <~ make_wcs d hdu' ;;
    ret (image, header, wcs)).

End Lesson0.

(* ===================================================================== *)
(** ** sklearn.metrics                                                    *)
(* ===================================================================== *)

Module Sklearn.
Import Py Np.

(** The number of samples with true label [i] and predicted label [j]. *)
Definition count_pairs (i j : Z) (y_true y_pred : list Z) : Z :=
  Z.of_nat (length (filter (fun tp => (fst tp =? i)%Z && (snd tp =? j)%Z)
                           (combine y_true y_pred))).

(** [metrics.confusion_matrix(y_true, y_pred, labels=[0, 1])]: entry
    [(i, j)] counts the samples of class [i] predicted as [j]; samples
    whose true label is neither 0 nor 1 are left out.  The lengths must
    agree, and a non-empty [y_true] must contain one of the labels. *)
Definition confusion_matrix (y_true y_pred : ndarray Z) : result (ndarray Z) :=
  let yt := data y_true in
  let yp := data y_pred in
  if negb (length yt =? length yp) then Raise ValueError
  else if length yt =? 0 then
    Ok {| shape := [2; 2]; data := [0; 0; 0; 0]%Z |}
  else if negb (existsb (fun t => (t =? 0)%Z || (t =? 1)%Z) yt) then Raise ValueError
  else
    Ok {| shape := [2; 2];
          data := [count_pairs 0 0 yt yp; count_pairs 0 1 yt yp;
                   count_pairs 1 0 yt yp; count_pairs 1 1 yt yp] |}.

End Sklearn.

(* ===================================================================== *)
(** ** notebooks/05-classify-with-ml/05-classify-with-ml.ipynb            *)
(* ===================================================================== *)

Module Classify.
Import Py Np Sklearn.

(** *** The cell importing [stella] *)

(** The Python environment: for each module, the exception its import
    raises, if any. *)
Definition pyenv := string -> option exn.

Record session := {
  env : pyenv;
  modules : list string;     (* the modules imported so far *)
  commands : list string     (* the commands run so far *)
}.

Section ImportCell.
(** What running an installation command makes of the environment. *)
Variable run : string -> pyenv -> pyenv.

(** The installation line of the cell is a command line, not a Python
    statement.  [bare_commands] tells whether the notebook front end hands
    such a line to the command interpreter (IPython's automagic); where it
    does not, the cell is rejected with a SyntaxError when it is compiled,
    before any of it runs. *)
Variable bare_commands : bool.

(** [import m]. *)
Definition import_module (m : string) : St session unit :=
  fun s =>
    match env s m with
    | Some e => (Raise e, s)
    | None =>
        (Ok tt, {| env := env s; modules := m :: modules s;
                   commands := commands s |})
    end.

(** A command line handed to the shell. *)
Definition run_command (cmd : string) : St session unit :=
  fun s =>
    (Ok tt, {| env := run cmd (env s); modules := modules s;
               commands := commands s ++ [cmd] |}).

Definition install_stella : string :=
  "conda run pip install git+https://github.com/afeinstein20/stella".

(** [try: import stella
     except: conda run pip install git+...; import stella] *)
Definition cell_import_stella : St session unit :=
  if bare_commands then
    try_except
      (import_module "stella")
      (_ <~ run_command install_stella ;;
       import_module "stella")
  else raise SyntaxError.
End ImportCell.

(** *** [remove_nans] and the filtering cell *)

(** One turn of the loop of [remove_nans], on the local list [idx]:
    [if len(input_data[k, :, :][np.isnan(input_data[k, :, :])]) == 0:
         idx.append(k)] *)
Definition remove_nans_body (input_data : ndarray npfloat) (k : nat)
  : St (list nat) unit :=
  fun idx =>
    match (seg <- getitem_k_all_all input_data k ;;
           seg' <- getitem_k_all_all input_data k ;;
           nans <- getitem_mask seg (np_isnan seg') ;;
           len nans) with
    | Ok n => (Ok tt, if n =? 0 then idx ++ [k] else idx)
    | Raise e => (Raise e, idx)
    end.

(** [def remove_nans(input_data):
       idx = []
       for k in range(np.shape(input_data)[0]): ...
       return idx] *)
Definition remove_nans (input_data : ndarray npfloat) : result (list nat) :=
  n <- shape0 input_data ;;
  match for_each (range n) (remove_nans_body input_data) [] with
  | (Ok _, idx) => Ok idx
  | (Raise e, _) => Raise e
  end.

(** [stella.FlareDataSet]: the three partitions. *)
Record FlareDataSet := {
  train_data : ndarray npfloat;
  train_labels : ndarray Z;
  test_data : ndarray npfloat;
  test_labels : ndarray Z;
  val_data : ndarray npfloat;
  val_labels : ndarray Z
}.

Definition set_train_data v : St FlareDataSet unit := fun ds =>
  (Ok tt, {| train_data := v; train_labels := train_labels ds;
             test_data := test_data ds; test_labels := test_labels ds;
             val_data := val_data ds; val_labels := val_labels ds |}).
Definition set_train_labels v : St FlareDataSet unit := fun ds =>
  (Ok tt, {| train_data := train_data ds; train_labels := v;
             test_data := test_data ds; test_labels := test_labels ds;
             val_data := val_data ds; val_labels := val_labels ds |}).
Definition set_test_data v : St FlareDataSet unit := fun ds =>
  (Ok tt, {| train_data := train_data ds; train_labels := train_labels ds;
             test_data := v; test_labels := test_labels ds;
             val_data := val_data ds; val_labels := val_labels ds |}).
Definition set_test_labels v : St FlareDataSet unit := fun ds =>
  (Ok tt, {| train_data := train_data ds; train_labels := train_labels ds;
             test_data := test_data ds; test_labels := v;
             val_data := val_data ds; val_labels := val_labels ds |}).
Definition set_val_data v : St FlareDataSet unit := fun ds =>
  (Ok tt, {| train_data := train_data ds; train_labels := train_labels ds;
             test_data := test_data ds; test_labels := test_labels ds;
             val_data := v; val_labels := val_labels ds |}).
Definition set_val_labels v : St FlareDataSet unit := fun ds =>
  (Ok tt, {| train_data := train_data ds; train_labels := train_labels ds;
             test_data := test_data ds; test_labels := test_labels ds;
             val_data := val_data ds; val_labels := v |}).

(** Evaluating an expression over the attributes of [ds]. *)
Definition eval {A} (e : FlareDataSet -> result A) : St FlareDataSet A :=
  fun ds => (e ds, ds).

(** The cell after the definition of [remove_nans]:
    [idx_train = remove_nans(ds.train_data)
     idx_test = remove_nans(ds.test_data)
     idx_val = remove_nans(ds.val_data)
     ds.train_data = ds.train_data[idx_train]
     ds.train_labels = ds.train_labels[idx_train]
     ds.test_data = ds.test_data[idx_test]
     ds.test_labels = ds.test_labels[idx_test]
     ds.val_data = ds.val_data[idx_val]
     ds.val_labels = ds.val_labels[idx_val]] *)
Definition cell_remove_nans : St FlareDataSet unit :=
  idx_train <~ eval (fun ds => remove_nans (train_data ds)) ;;
  idx_test <~ eval (fun ds => remove_nans (test_data ds)) ;;
  idx_val <~ eval (fun ds => remove_nans (val_data ds)) ;;
  v <~ eval (fun ds => getitem_list (train_data ds) idx_train) ;;
  _ <~ set_train_data v ;;
  v <~ eval (fun ds => getitem_list (train_labels ds) idx_train) ;;
  _ <~ set_train_labels v ;;
  v <~ eval (fun ds => getitem_list (test_data ds) idx_test) ;;
  _ <~ set_test_data v ;;
  v <~ eval (fun ds => getitem_list (test_labels ds) idx_test) ;;
  _ <~ set_test_labels v ;;
  v <~ eval (fun ds => getitem_list (val_data ds) idx_val) ;;
  _ <~ set_val_data v ;;
  v <~ eval (fun ds => getitem_list (val_labels ds) idx_val) ;;
  set_val_labels v.

(** Whether segment [k] of [a] is free of NaN. *)
Definition nan_free (a : ndarray npfloat) (k : nat) : bool :=
  forallb (fun x => negb (isnan x)) (chunk (size_of (tl (shape a))) k (data a)).

(** The indices of the segments of [a] without NaN, in increasing order. *)
Definition nan_free_indices (a : ndarray npfloat) : list nat :=
  filter (nan_free a) (seq 0 (hd 0 (shape a))).

(** The segments of [a], along its first axis. *)
Definition segments {A} (a : ndarray A) : list (list A) :=
  map (fun k => chunk (size_of (tl (shape a))) k (data a))
      (seq 0 (hd 0 (shape a))).

(** *** [plot_confusion_matrix] *)

(** One [ax.text] call. *)
Record text := {
  text_x : nat;
  text_y : nat;
  text_value : npfloat;     (* the number that is formatted *)
  text_fmt : string;
  text_color : string
}.

(** What the function draws. *)
Record figure := {
  matshow : ndarray npfloat;
  cmap : string;
  title : string;
  xticks : list nat;
  xticklabels : list string;
  yticks : list nat;
  yticklabels : list string;
  xlabel : string;
  ylabel : string;
  texts : list text
}.

(** [(predictions > 0.5).astype('int32')] *)
Definition binarize1 (p : npfloat) : Z := if fgtb p (1 # 2) then 1%Z else 0%Z.

Definition binarize (predictions : ndarray npfloat) : ndarray Z :=
  amap binarize1 predictions.

(** The body of the inner loop:
    [ax.text(j, i, format(cm_norm[i, j], fmt), ha="center", va="center",
             color="white" if cm_norm[i, j] < thresh else "black")] *)
Definition text_body (cm_norm : ndarray npfloat) (thresh : npfloat) (i j : nat)
  : St (list text) unit :=
  fun ts =>
    match getitem2 cm_norm i j with
    | Ok v =>
        (Ok tt,
         ts ++ [{| text_x := j; text_y := i; text_value := v; text_fmt := ".2f";
                   text_color := if fltb v thresh then "white" else "black" |}])
    | Raise e => (Raise e, ts)
    end.

(** [cm_norm.shape[1]]. *)
Definition shape1 {A} (a : ndarray A) : result nat :=
  match shape a with
  | _ :: c :: _ => Ok c
  | _ => Raise IndexError
  end.

(** The body of the outer loop: [for j in range(cm_norm.shape[1]): ...] *)
Definition row_body (cm_norm : ndarray npfloat) (thresh : npfloat) (i : nat)
  : St (list text) unit :=
  c <~ lift (shape1 cm_norm) ;;
  for_each (range c) (text_body cm_norm thresh i).

(** The plotting part of the function, from [fig = plt.figure()] on. *)
Definition render (cm_norm : ndarray npfloat) : result figure :=
  m <- np_max cm_norm ;;
  let thresh := fdiv m (Finite 2) in
  r <- shape0 cm_norm ;;
  match for_each (range r) (row_body cm_norm thresh) [] with
  | (Raise e, _) => Raise e
  | (Ok _, ts) =>
      Ok {| matshow := cm_norm; cmap := "binary_r";
            title := "Confusion matrix";
            xticks := [0; 1]; xticklabels := ["Flare"; "No Flare"]%string;
            yticks := [0; 1]; yticklabels := ["Flare"; "No Flare"]%string;
            xlabel := "Predicted"; ylabel := "True";
            texts := ts |}
  end.

Section ConfusionMatrix.
(** The type of the data the network reads. *)
Variable D : Type.

(** The trained network: [cnn.predict]. *)
Record network := { predict : D -> ndarray npfloat }.

(** [def plot_confusion_matrix(cnn, input_data, input_labels):
       predictions = cnn.predict(input_data)
       predictions = (predictions > 0.5).astype('int32')
       cm = metrics.confusion_matrix(input_labels, predictions, labels=[0, 1])
       cm = cm.astype('float')
       cm_norm = cm / cm.sum(axis=1)[:, np.newaxis]
       ...plotting...] *)
Definition plot_confusion_matrix (cnn : network) (input_data : D)
  (input_labels : ndarray Z) : result figure :=
  let predictions := predict cnn input_data in
  let predictions := binarize predictions in
  cm <- confusion_matrix input_labels predictions ;;
  let cm := amap of_Z cm in
  let cm_norm := div_by_row_sums cm in
  render cm_norm.
End ConfusionMatrix.

(** *** The targets and their light curves *)

Record lightcurve := {
  targetid : Z;
  time : ndarray npfloat;
  flux : ndarray npfloat;
  flux_err : ndarray npfloat
}.

(** What the names [lc] and the items of [lcs] are bound to: [None], a
    search result, a collection of light curves, or one light curve. *)
Inductive pyval :=
| PNone
| PSearchResult (table : list string)
| PCollection (l : list lightcurve)
| PLightCurve (l : lightcurve).

Definition ticids : list string :=
  ["120461526"; "278779899"; "139754153"; "273418879"; "52121469";
   "188580272"; "394015919"; "206544316"]%string.

Definition sectors : list Z := [1; 2]%Z.

(** The variables of the kernel the loops below work on. *)
Record namespace := {
  lcs : list pyval;
  lc : pyval;
  stdout : list string
}.

Definition set_lc (v : pyval) : St namespace unit := fun ns =>
  (Ok tt, {| lcs := lcs ns; lc := v; stdout := stdout ns |}).

Definition append_lcs (v : pyval) : St namespace unit := fun ns =>
  (Ok tt, {| lcs := lcs ns ++ [v]; lc := lc ns; stdout := stdout ns |}).

Definition print (line : string) : St namespace unit := fun ns =>
  (Ok tt, {| lcs := lcs ns; lc := lc ns; stdout := stdout ns ++ [line] |}).

Definition get_lc : St namespace pyval := fun ns => (Ok (lc ns), ns).

(** [len(v)]. *)
Definition py_len (v : pyval) : result nat :=
  match v with
  | PNone => Raise TypeError
  | PSearchResult table => Ok (length table)
  | PCollection l => Ok (length l)
  | PLightCurve l => len (flux l)
  end.

(** [v[0]] of a collection. *)
Definition getitem0 (v : pyval) : result pyval :=
  match v with
  | PCollection (l :: _) => Ok (PLightCurve l)
  | PCollection [] => Raise IndexError
  | _ => Raise TypeError
  end.

(** [v.flux]. *)
Definition get_flux (v : pyval) : result (ndarray npfloat) :=
  match v with
  | PLightCurve l => Ok (flux l)
  | _ => Raise AttributeError
  end.

Section Targets.
(** [search_lightcurve(target=..., mission='TESS', sector=..., author='SPOC')]
    followed by [download_all()]: what lightkurve returns for a target. *)
Variable search_lightcurve : string -> string -> list Z -> string -> result pyval.
Variable download_all : pyval -> result pyval.

(** [lc = search_lightcurve(target='TIC'+name, ...)
     lc = lc.download_all()
     lcs.append(lc)] *)
Definition download_body (name : string) : St namespace unit :=
  found <~ lift (search_lightcurve ("TIC" ++ name) "TESS" sectors "SPOC") ;;
  _ <~ set_lc found ;;
  v <~ lift (download_all found) ;;
  _ <~ set_lc v ;;
  append_lcs v.

(** [lcs = []; for name in ticids: ...] *)
Definition cell_download_targets : St namespace unit :=
  fun ns =>
    for_each ticids download_body
      {| lcs := []; lc := lc ns; stdout := stdout ns |}.
End Targets.

Definition warning : string := "Non-finite number found!".

(** [if len(lc) > 0: lc = lc[0]] *)
Definition pick_first : St namespace unit :=
  v <~ get_lc ;;
  n <~ lift (py_len v) ;;
  if 0 <? n then
    v0 <~ lift (getitem0 v) ;;
    set_lc v0
  else ret tt.

(** One turn of the quality-check loop:
    [if len(lc) > 0: lc = lc[0]
     if not np.all(np.isfinite(lc.flux)): print('Non-finite number found!')] *)
Definition quality_body (item : pyval) : St namespace unit :=
  _ <~ set_lc item ;;
  _ <~ pick_first ;;
  v <~ get_lc ;;
  f <~ lift (get_flux v) ;;
  if negb (np_all (np_isfinite f)) then print warning else ret tt.

(** [for lc in lcs: ...] *)
Definition cell_quality_checks : St namespace unit :=
  fun ns => for_each (lcs ns) quality_body ns.

Section Plots.
(** The calls into [stella] and [matplotlib] made for one light curve of
    the prediction cell and for one example of the example cell. *)
Variable predict_and_plot : nat -> pyval -> St namespace unit.
Variable plot_example : nat -> ndarray npfloat -> Z -> St namespace unit.

(** [for i, lc in enumerate(lcs):
       if len(lc)>0: lc = lc[0]
       cnn_stella.predict(...); ax = fig.add_subplot(4,2,i+1); ...] *)
Definition predict_body (item : nat * pyval) : St namespace unit :=
  _ <~ set_lc (snd item) ;;
  _ <~ pick_first ;;
  v <~ get_lc ;;
  predict_and_plot (fst item) v.

Definition cell_predict_targets : St namespace unit :=
  fun ns => for_each (enumerate (lcs ns)) predict_body ns.

(** [example_lightcurves = [ds.train_data[j] for j in example_ids]
     example_labels = [ds.train_labels[j] for j in example_ids]
     for i in range(len(example_ids)): plt.subplot(4, 4, i + 1); ...]
    with [example_ids] drawn by [np.random.choice]. *)
Definition rows_at {A} (a : ndarray A) (ids : list nat) : result (list (ndarray A)) :=
  comprehension (getitem_row a) ids.

Definition example_body (example_lightcurves : list (ndarray npfloat))
  (example_labels : list (ndarray Z)) (i : nat) : St namespace unit :=
  match nth_error example_lightcurves i, nth_error example_labels i with
  | Some curve, Some label =>
      match data label with
      | [l] => if ((l =? 0) || (l =? 1))%Z then plot_example i curve l
               else raise (OtherError "KeyError")
      | _ => raise TypeError
      end
  | _, _ => raise IndexError
  end.

Definition cell_plot_examples (ds : FlareDataSet) (example_ids : list nat)
  : St namespace unit :=
  example_lightcurves <~ lift (rows_at (train_data ds) example_ids) ;;
  example_labels <~ lift (rows_at (train_labels ds) example_ids) ;;
  for_each (range (length example_ids))
           (example_body example_lightcurves example_labels).
End Plots.

(** *** Vocabulary of the properties *)

(** A flux array holds a value that is not finite. *)
Definition has_non_finite (f : ndarray npfloat) : Prop :=
  exists x, In x (data f) /\ isfinite x = false.

(** What one turn of the quality check prints for a collection whose first
    light curve is [l0]. *)
Definition warns_iff_non_finite (item : pyval) (out : list string) : Prop :=
  exists l0 rest,
    item = PCollection (l0 :: rest)
    /\ ((out = [warning] /\ has_non_finite (flux l0))
        \/ (out = [] /\ ~ has_non_finite (flux l0))).

Definition non_empty_collection (item : pyval) : Prop :=
  exists l0 rest, item = PCollection (l0 :: rest).

(** A segment without NaN. *)
Definition no_nan (seg : list npfloat) : bool :=
  forallb (fun x => negb (isnan x)) seg.

(** A partition as the library makes it: the data with at least three axes,
    the labels with as many entries along the first axis. *)
Definition partition_ok (d : ndarray npfloat) (l : ndarray Z) : Prop :=
  wf d /\ wf l
  /\ exists n c w sh lsh, shape d = n :: c :: w :: sh /\ shape l = n :: lsh.

Definition dataset_ok (ds : FlareDataSet) : Prop :=
  partition_ok (train_data ds) (train_labels ds)
  /\ partition_ok (test_data ds) (test_labels ds)
  /\ partition_ok (val_data ds) (val_labels ds).

(** [d'] and [l'] are [d] and [l] restricted, in order, to the segments
    of [d] without NaN. *)
Definition restricted (d : ndarray npfloat) (l : ndarray Z)
  (d' : ndarray npfloat) (l' : ndarray Z) : Prop :=
  tl (shape d') = tl (shape d) /\ tl (shape l') = tl (shape l)
  /\ segments d' = filter no_nan (segments d)
  /\ segments l'
     = map snd (filter (fun p => no_nan (fst p)) (combine (segments d) (segments l))).

(** [d'] and [l'] are [d] and [l] themselves when [d] holds no NaN. *)
Definition same_if_no_nan (d : ndarray npfloat) (l : ndarray Z)
  (d' : ndarray npfloat) (l' : ndarray Z) : Prop :=
  no_nan (data d) = true -> d' = d /\ l' = l.

(** Data and labels of equal length, the data without NaN. *)
Definition filtered (d : ndarray npfloat) (l : ndarray Z) : Prop :=
  (exists m, len d = Ok m /\ len l = Ok m)
  /\ Forall (fun x => isnan x = false) (data d).

(** The sum of a row of counts. *)
Definition sumZ (row : list Z) : Z := fold_right Z.add 0%Z row.

(** [x] is the quotient of the count [c] by the row sum [s]. *)
Definition quotient_of (s c : Z) (x : npfloat) : Prop :=
  exists q, x = Finite q /\ (q == inject_Z c / inject_Z s)%Q.

(** The entries of a row add up to 1. *)
Definition sums_to_one (row : list npfloat) : Prop :=
  exists t, sum_list row = Finite t /\ (t == 1)%Q.

(** The number of samples whose label and probability satisfy [f]. *)
Definition count_where (f : Z -> npfloat -> bool) (labels : list Z)
  (probabilities : list npfloat) : Z :=
  Z.of_nat (length (filter (fun tp => f (fst tp) (snd tp))
                           (combine labels probabilities))).

(** A loop that stops, with result [r], whenever it is given more than
    [bound] calls of [next]. *)
Definition halts_with {W} (loop : nat -> W -> option (result unit * W))
  (bound : nat) (w : W) (r : result unit * W) : Prop :=
  forall fuel, bound < fuel -> loop fuel w = Some r.

End Classify.

(* ===================================================================== *)
(** ** Sample inputs                                                      *)
(* ===================================================================== *)

Module Samples.
Import Py Np Store Fits.

(** A disk on which every path opens, and a fresh kernel. *)
Definition disk0 : disk :=
  {| readable := fun _ => true; n_hdus := fun _ => 3; has_wcs := fun _ _ => true |}.

Definition kernel0 : kernel := {| open_handles := []; created := 0 |}.

(** A 2x2 frame, an aperture selecting its diagonal, an empty aperture. *)
Definition frame0 : ndarray npfloat :=
  {| shape := [2; 2]; data := [Finite 1; Finite 2; Finite 3; Finite 4] |}.

Definition aperture0 : ndarray npfloat :=
  {| shape := [2; 2]; data := [Finite 1; Finite 0; Finite 0; Finite 1] |}.

Definition aperture_none : ndarray npfloat :=
  {| shape := [2; 2]; data := [Finite 0; Finite 0; Finite 0; Finite 0] |}.

Definition heap0 : heap := [FloatArray frame0; FloatArray aperture0].
Definition heap1 : heap := [FloatArray frame0; FloatArray aperture_none].

(** A dataset whose first training segment holds a NaN. *)
Definition dataset0 : Classify.FlareDataSet :=
  {| Classify.train_data :=
       {| shape := [2; 2; 1]; data := [Finite 1; NaN; Finite 3; Finite 4] |};
     Classify.train_labels := {| shape := [2]; data := [1; 0]%Z |};
     Classify.test_data := {| shape := [1; 2; 1]; data := [Finite 5; Finite 6] |};
     Classify.test_labels := {| shape := [1]; data := [1]%Z |};
     Classify.val_data := {| shape := [1; 2; 1]; data := [Finite 7; Finite 8] |};
     Classify.val_labels := {| shape := [1]; data := [0]%Z |} |}.

(** What the filtering cell makes of it. *)
Definition dataset1 : Classify.FlareDataSet :=
  {| Classify.train_data := {| shape := [1; 2; 1]; data := [Finite 3; Finite 4] |};
     Classify.train_labels := {| shape := [1]; data := [0]%Z |};
     Classify.test_data := {| shape := [1; 2; 1]; data := [Finite 5; Finite 6] |};
     Classify.test_labels := {| shape := [1]; data := [1]%Z |};
     Classify.val_data := {| shape := [1; 2; 1]; data := [Finite 7; Finite 8] |};
     Classify.val_labels := {| shape := [1]; data := [0]%Z |} |}.

(** Two downloaded collections: the flux of the first holds a NaN. *)
Definition curve (f : list npfloat) : Classify.lightcurve :=
  {| Classify.targetid := 120461526%Z;
     Classify.time := {| shape := [length f]; data := map (fun _ => Finite 0) f |};
     Classify.flux := {| shape := [length f]; data := f |};
     Classify.flux_err := {| shape := [length f]; data := map (fun _ => Finite 0) f |} |}.

Definition namespace0 : Classify.namespace :=
  {| Classify.lcs := [Classify.PCollection [curve [Finite 1; NaN]];
                      Classify.PCollection [curve [Finite 1; Finite 2]]];
     Classify.lc := Classify.PNone;
     Classify.stdout := [] |}.

(** A network giving four fixed probabilities, and the labels of the four
    samples. *)
Definition cnn0 : Classify.network unit :=
  {| Classify.predict := fun _ =>
       {| shape := [4; 1];
          data := [Finite (9 # 10); Finite (1 # 2); Finite (2 # 10); Finite (7 # 10)] |} |}.

Definition labels0 : ndarray Z := {| shape := [4]; data := [1; 1; 0; 0]%Z |}.

(** A session in which [stella] is not installed. *)
Definition session0 : Classify.session :=
  {| Classify.env := fun m => if String.eqb m "stella" then Some ImportError else None;
     Classify.modules := [];
     Classify.commands := [] |}.

End Samples.

(* ===================================================================== *)
(** ** More of the notebooks                                              *)
(* ===================================================================== *)

Module Aperture.
Import Py Np Store NpRef Lightcurves.

(** The light-curve notebook builds its aperture from the flags of the
    APERTURE extension:
    [aperture = np.bitwise_and(aperture_image, 2) / float(2)] *)
Definition make_aperture (aperture_image : ndarray Z) : ndarray npfloat :=
  amap (fun x => fdiv (of_Z (Z.land x 2)) (Finite 2)) aperture_image.

(** The cutout notebook part takes the extension as it is:
    [aperture_ffi = hdu1[2].data], an integer array used as the mask. *)
Definition as_float (a : ndarray Z) : ndarray npfloat := amap of_Z a.

(** The offsets of the pixels whose flag has the bit of value 2 set. *)
Definition flagged_offsets (aperture_image : ndarray Z) : list nat :=
  filter (fun k => Z.testbit (nth k (data aperture_image) 0%Z) 1)
         (seq 0 (length (data aperture_image))).

(** A store that is [h] with more objects after it. *)
Definition extends (h h' : heap) : Prop :=
  forall r o, nth_error h r = Some o -> nth_error h' r = Some o.

(** The frames [frames] of the store are the arrays [imgs], each with the
    shape [sh]. *)
Definition frames_are (h : heap) (sh : list nat) (frames : list ref)
  (imgs : list (ndarray npfloat)) : Prop :=
  Forall2 (fun r img => nth_error h r = Some (FloatArray img)
                        /\ shape img = sh /\ wf img) frames imgs.

End Aperture.

Module Archive.
Import Py Fits.

(** What the network and the disk hold for the archive cells: the local
    path a URL downloads to, the paths that open as tar archives, and the
    archives that extract without error. *)
Record site := {
  download : string -> result string;
  is_tar : string -> bool;
  extracts : string -> bool
}.

Definition file_url : string :=
  "https://archive.stsci.edu/hlsps/hellouniverse/hellouniverse_stella_500.tar.gz".

(** [tarfile.open(path)]: a handle in the kernel's file state. *)
Definition tar_open (w : site) (path : string) : K handle :=
  fun k =>
    if is_tar w path then
      (Ok (created k),
       {| open_handles := open_handles k ++ [(created k, path)];
          created := S (created k) |})
    else (Raise (OtherError "ReadError"), k).

(** [file.extractall('.')]: needs the archive open. *)
Definition extractall (w : site) (file : handle) : K unit :=
  fun k =>
    match path_of file k with
    | None => (Raise (OtherError "OSError"), k)
    | Some p => if extracts w p then (Ok tt, k) else (Raise (OtherError "OSError"), k)
    end.

(** [file = tarfile.open(download_file(file_url, cache=True))] *)
Definition cell_open_archive (w : site) : K handle :=
  path <~ lift (download w file_url) ;;
  tar_open w path.

(** [file.extractall('.')
     file.close()] *)
Definition cell_extract (w : site) (file : handle) : K unit :=
  _ <~ extractall w file ;;
  close file.

End Archive.

Module Network.
Import Py Np.

(** The layers the notebook stacks, with what fixes their output shape:
    [Convolution1D(filters, kernel_size, padding='same')],
    [MaxPooling1D(pool_size)], [Dropout], [Flatten], [Dense(units)]. *)
Inductive layer :=
| Convolution1D (filters kernel_size : nat)
| MaxPooling1D (pool_size : nat)
| Dropout
| Flatten
| Dense (units : nat).

(** The shape of a layer's output for an input of shape [sh] (without the
    batch axis).  A convolution with padding 'same' keeps the length; a
    pooling with the default stride and padding 'valid' needs a window
    that fits. *)
Definition out_shape (l : layer) (sh : list nat) : result (list nat) :=
  match l, sh with
  | Convolution1D f _, [len; _] => Ok [len; f]
  | MaxPooling1D p, [len; ch] =>
      if (0 <? p) && (p <=? len) then Ok [(len - p) / p + 1; ch]
      else Raise ValueError
  | Dropout, _ => Ok sh
  | Flatten, _ => Ok [size_of sh]
  | Dense u, [_] => Ok [u]
  | _, _ => Raise ValueError
  end.

(** The number of weights of a layer: kernels and biases. *)
Definition n_params (l : layer) (sh : list nat) : nat :=
  match l, sh with
  | Convolution1D f k, [_; ch] => k * ch * f + f
  | Dense u, [n] => n * u + u
  | _, _ => 0
  end.

Definition filter1 : nat := 16.
Definition filter2 : nat := 64.
Definition dense : nat := 128.

(** The network of the notebook, from [x_in] to [y_out]:
    [c0 = Convolution1D(7, filter1, ..., padding='same')(x_in)
     b0 = MaxPooling1D(pool_size=2)(c0);  d0 = Dropout(dropout)(b0)
     c1 = Convolution1D(3, filter2, ..., padding='same')(d0)
     b1 = MaxPooling1D(pool_size=2)(c1);  d1 = Dropout(dropout)(b1)
     f = Flatten()(d1);  z0 = Dense(dense)(f);  d2 = Dropout(dropout)(z0)
     y_out = Dense(1, activation='sigmoid')(d2)] *)
Definition cnn_layers : list layer :=
  [Convolution1D 7 filter1; MaxPooling1D 2; Dropout;
   Convolution1D 3 filter2; MaxPooling1D 2; Dropout;
   Flatten; Dense dense; Dropout; Dense 1].

(** [input_shape = (np.shape(ds.train_data)[1], 1)] *)
Definition input_shape (train_data : ndarray npfloat) : result (list nat) :=
  match shape train_data with
  | _ :: cadences :: _ => Ok [cadences; 1]
  | _ => Raise IndexError
  end.

(** Stacking the layers: the output shape and the number of weights. *)
Fixpoint build (layers : list layer) (sh : list nat) (weights : nat)
  : result (list nat * nat) :=
  match layers with
  | [] => Ok (sh, weights)
  | l :: layers' =>
      sh' <- out_shape l sh ;;
      build layers' sh' (weights + n_params l sh)
  end.

Definition build_cnn (train_data : ndarray npfloat) : result (list nat * nat) :=
  sh <- input_shape train_data ;;
  build cnn_layers sh 0.

End Network.

Module Labels.

(** The dictionary of the example cell:
    [titles = {1: 'Flare', 0: 'Non-flare'}]. *)
Definition titles (label : Z) : option string :=
  if (label =? 1)%Z then Some "Flare"%string
  else if (label =? 0)%Z then Some "Non-flare"%string
  else None.

End Labels.

Module Targets.
Import Py Classify.

(** What lightkurve gives for a target: [v] is the download of the search
    for ['TIC' + name] in the two sectors. *)
Definition downloaded
  (search_lightcurve : string -> string -> list Z -> string -> result pyval)
  (download_all : pyval -> result pyval) (name : string) (v : pyval) : Prop :=
  exists found,
    search_lightcurve ("TIC" ++ name)%string "TESS"%string sectors "SPOC"%string
    = Ok found
    /\ download_all found = Ok v.

End Targets.

Module MoreSamples.
Import Py Np Store.

(** The flags of a 2x2 aperture extension: bit 2 set on the diagonal. *)
Definition flags0 : ndarray Z := {| shape := [2; 2]; data := [3; 1; 0; 2]%Z |}.

Definition frame_nan : ndarray npfloat :=
  {| shape := [2; 2]; data := [Finite 1; Finite 2; Finite 3; NaN] |}.

Definition aperture_all : ndarray npfloat :=
  {| shape := [2; 2]; data := [Finite 1; Finite 1; Finite 1; Finite 1] |}.

Definition frame_small : ndarray npfloat :=
  {| shape := [1; 2]; data := [Finite 1; Finite 2] |}.

(** Two frames and an aperture; a store with a frame of another shape. *)
Definition heap2 : heap :=
  [FloatArray Samples.frame0; FloatArray frame_nan; FloatArray Samples.aperture0].

Definition heap3 : heap :=
  [FloatArray Samples.frame0; FloatArray frame_small; FloatArray Samples.aperture0].

Definition heap_flags : heap :=
  [FloatArray Samples.frame0; FloatArray (Aperture.make_aperture flags0)].

Definition heap_all : heap := [FloatArray Samples.frame0; FloatArray aperture_all].

(** A site whose archive downloads, opens and extracts. *)
Definition site0 : Archive.site :=
  {| Archive.download := fun _ => Ok "archive.tar.gz"%string;
     Archive.is_tar := fun _ => true;
     Archive.extracts := fun _ => true |}.

(** A dataset whose train labels are too short for the data. *)
Definition dataset_short : Classify.FlareDataSet :=
  {| Classify.train_data :=
       {| shape := [2; 2; 1]; data := [Finite 1; NaN; Finite 3; Finite 4] |};
     Classify.train_labels := {| shape := [1]; data := [1]%Z |};
     Classify.test_data := {| shape := [1; 2; 1]; data := [Finite 5; Finite 6] |};
     Classify.test_labels := {| shape := [1]; data := [1]%Z |};
     Classify.val_data := {| shape := [1; 2; 1]; data := [Finite 7; Finite 8] |};
     Classify.val_labels := {| shape := [1]; data := [0]%Z |} |}.

(** Labels without any flare, for the network of the samples. *)
Definition labels_no_flare : ndarray Z := {| shape := [4]; data := [0; 0; 0; 0]%Z |}.

(** A namespace whose second download came back as [None]. *)
Definition namespace_none : Classify.namespace :=
  {| Classify.lcs := [Classify.PCollection [Samples.curve [Finite 1; NaN]];
                      Classify.PNone;
                      Classify.PCollection [Samples.curve [PosInf]]];
     Classify.lc := Classify.PNone;
     Classify.stdout := [] |}.

(** A training array of 500 segments of 200 cadences (shape only: the
    elements do not matter to the network's shape). *)
Definition train_shape : ndarray npfloat := {| shape := [500; 200; 1]; data := [] |}.

End MoreSamples.

(* ===================================================================== *)
(** * Properties                                                          *)
(* ===================================================================== *)

(** ** Lists and the state monad *)

Section ListFacts.
Variable A : Type.

Lemma filter_map_S (f : nat -> bool) (l : list nat) :
  filter f (map S l) = map S (filter (fun k => f (S k)) l).
Proof.
  induction l as [|x l IH]; simpl; [reflexivity|].
  destruct (f (S x)); simpl; now rewrite IH.
Qed.

Lemma select_offsets (d : A) (l : list A) :
  forall m, length l = length m ->
    Np.select l m
    = map (fun k => nth k l d)
          (filter (fun k => nth k m false) (seq 0 (length m))).
Proof.
  induction l as [|x l IH]; intros [|b m] Hlen; simpl in *; try discriminate;
    [reflexivity|].
  injection Hlen as Hlen.
  rewrite <- seq_shift, filter_map_S, (IH m Hlen).
  destruct b; simpl; rewrite map_map; reflexivity.
Qed.

Lemma nth_map_in (B : Type) (f : A -> B) (d : A) (d' : B) (l : list A) :
  forall k, k < length l -> nth k (map f l) d' = f (nth k l d).
Proof.
  induction l as [|x l IH]; intros [|k] Hk; simpl in *; try lia; [reflexivity|].
  apply IH. lia.
Qed.

Lemma select_none (l : list A) :
  forall m, (forall b, In b m -> b = false) -> Np.select l m = [].
Proof.
  induction l as [|x l IH]; intros [|b m] Hm; simpl; try reflexivity.
  rewrite (Hm b (or_introl eq_refl)). apply IH. intros c Hc. apply Hm. now right.
Qed.
End ListFacts.

Section StateFacts.
Import Py.
Variables W A B : Type.

Lemma sbind_ok (c : St W A) (k : A -> St W B) (w w' : W) (a : A) :
  c w = (Ok a, w') -> sbind c k w = k a w'.
Proof. intros H. unfold sbind. now rewrite H. Qed.

Lemma sbind_frame (c : St W A) (k : A -> St W B) (w : W) :
  snd (c w) = w -> (forall a, snd (k a w) = w) -> snd (sbind c k w) = w.
Proof.
  intros Hc Hk. unfold sbind. destruct (c w) as [[a|e] w']; simpl in Hc; subst w'.
  - apply Hk.
  - reflexivity.
Qed.
End StateFacts.

(** ** [aperture_phot] *)

Section AperturePhot.
Import Py Np Store NpRef Lightcurves.

Lemma shape_eqb_refl (sh : list nat) : shape_eqb sh sh = true.
Proof. unfold shape_eqb. destruct (list_eq_dec Nat.eq_dec sh sh); congruence. Qed.

Lemma shape_eqb_neq (s1 s2 : list nat) : s1 <> s2 -> shape_eqb s1 s2 = false.
Proof. unfold shape_eqb. destruct (list_eq_dec Nat.eq_dec s1 s2); congruence. Qed.

(** What the three numpy calls of [aperture_phot] do to the store. *)
Lemma aperture_phot_run (h : heap) (image aperture : ref) (img ap : ndarray npfloat) :
  nth_error h image = Some (FloatArray img) ->
  nth_error h aperture = Some (FloatArray ap) ->
  aperture_phot image aperture h
  = if shape_eqb (shape img) (shape ap) then
      let sel := select (data img) (data (eq_scalar ap 1)) in
      (Ok (sum_list sel),
       h ++ [BoolArray (eq_scalar ap 1)]
         ++ [FloatArray {| shape := [length sel]; data := sel |}])
    else (Raise IndexError, h ++ [BoolArray (eq_scalar ap 1)]).
Proof.
  intros Himg Hap.
  assert (Hi : image < length h) by (apply nth_error_Some; congruence).
  unfold aperture_phot, np_eq, np_getitem_mask, np_sum, sbind,
    get_float, get_bool, alloc, lift, ret.
  rewrite Hap.
  rewrite nth_error_app1 by exact Hi. rewrite Himg.
  rewrite nth_error_app2 by lia. rewrite Nat.sub_diag. simpl.
  unfold getitem_mask. simpl.
  destruct (shape_eqb (shape img) (shape ap)); [|reflexivity].
  rewrite nth_error_app2 by lia. rewrite Nat.sub_diag. simpl.
  rewrite <- app_assoc. reflexivity.
Qed.

Lemma aperture_offsets_spec (ap : ndarray npfloat) (k : nat) :
  In k (aperture_offsets ap)
  <-> k < length (data ap) /\ feqb (flat NaN ap k) 1 = true.
Proof.
  unfold aperture_offsets, offsets_where, eq_scalar, amap, flat; simpl.
  rewrite filter_In, in_seq, length_map.
  split.
  - intros [[_ Hk] Hb]. split; [exact Hk|].
    now rewrite (nth_map_in _ NaN) in Hb by exact Hk.
  - intros [Hk Hb]. split; [lia|].
    now rewrite (nth_map_in _ NaN) by exact Hk.
Qed.

Lemma aperture_offsets_NoDup (ap : ndarray npfloat) : NoDup (aperture_offsets ap).
Proof. apply NoDup_filter, seq_NoDup. Qed.


(** C9: when no entry of the aperture equals 1, [aperture_phot] returns
    0, the sum of no element, and raises nothing. *)
Theorem aperture_phot_empty_aperture :
  forall (h : heap) (image aperture : ref) (img ap : ndarray npfloat),
    nth_error h image = Some (FloatArray img) ->
    nth_error h aperture = Some (FloatArray ap) ->
    shape img = shape ap ->
    (forall x, In x (data ap) -> feqb x 1 = false) ->
    fst (aperture_phot image aperture h) = Ok (Finite 0).
Proof.
  intros h image aperture img ap Himg Hap Hsh Hnone.
  rewrite (@aperture_phot_run h image aperture img ap Himg Hap), Hsh, shape_eqb_refl. simpl.
  rewrite select_none; [reflexivity|].
  intros b Hb. apply in_map_iff in Hb. destruct Hb as [x [<- Hx]]. now apply Hnone.
Qed.


Lemma aperture_phot_empty_aperture_witness :
  shape Samples.frame0 = shape Samples.aperture_none
  /\ fst (aperture_phot 0 1 Samples.heap1) = Ok (Finite 0).
Proof.
  split; [reflexivity|].
  apply (@aperture_phot_empty_aperture Samples.heap1 0 1
           Samples.frame0 Samples.aperture_none eq_refl eq_refl eq_refl).
  intros x Hx. simpl in Hx.
  destruct Hx as [<-|[<-|[<-|[<-|[]]]]]; reflexivity.
Defined.

End AperturePhot.

(** ** FITS handles *)

Section FitsHandles.
Import Py Fits Samples.

Lemma filter_other_handles (l : list (handle * string)) (c : nat) :
  Forall (fun e => fst e < c) l ->
  filter (fun e => negb (fst e =? c)) l = l.
Proof.
  induction 1 as [|e l He _ IH]; simpl; [reflexivity|].
  destruct (Nat.eqb_spec (fst e) c); [lia|]. simpl. now rewrite IH.
Qed.

Lemma close_after_open (l : list (handle * string)) (c : nat) (p : string) :
  Forall (fun e => fst e < c) l ->
  filter (fun e => negb (fst e =? c)) (l ++ [(c, p)]) = l.
Proof.
  intros Hl. rewrite filter_app, (filter_other_handles Hl). simpl.
  rewrite Nat.eqb_refl. simpl. apply app_nil_r.
Qed.

Lemma getitem_kernel (d : disk) (h : handle) (i : nat) (k : kernel) :
  snd (getitem d h i k) = k.
Proof.
  unfold getitem. destruct (path_of h k); [|reflexivity].
  destruct (i <? n_hdus d s); reflexivity.
Qed.

Lemma make_wcs_kernel (d : disk) (hdu : string * nat) (k : kernel) :
  snd (make_wcs d hdu k) = k.
Proof. unfold make_wcs. destruct (has_wcs d (fst hdu) (snd hdu)); reflexivity. Qed.

(** A block that leaves the kernel's files alone, whatever it returns
    or raises, is closed off by [with]. *)
Lemma with_open_restores (A : Type) (d : disk) (path : string)
  (body : handle -> K A) (k : kernel) :
  kernel_ok k ->
  (forall h k1, snd (body h k1) = k1) ->
  open_handles (snd (with_open d path body k)) = open_handles k.
Proof.
  intros Hk Hbody. unfold with_open, fits_open.
  destruct (readable d path); [|reflexivity].
  specialize (Hbody (created k)
    {| open_handles := open_handles k ++ [(created k, path)];
       created := S (created k) |}).
  destruct (body _ _) as [r k2]. simpl in *. subst k2. simpl.
  apply close_after_open. exact Hk.
Qed.

Lemma open_image_body_kernel (d : disk) (h : handle) (k1 : kernel) :
  snd ((hdu <~ getitem d h 1 ;;
        hdu' <~ getitem d h 1 ;;
        wcs <~ make_wcs d hdu' ;;
        ret (HduData (fst hdu) (snd hdu), HduHeader (fst hdu') (snd hdu'), wcs)) k1)
  = k1.
Proof.
  apply sbind_frame; [apply getitem_kernel|]. intros hdu.
  apply sbind_frame; [apply getitem_kernel|]. intros hdu'.
  apply sbind_frame; [apply make_wcs_kernel|]. intros wcs.
  reflexivity.
Qed.

Lemma info_run (d : disk) (path : string) (k : kernel) :
  kernel_ok k -> readable d path = true ->
  info d path k
  = (Ok tt, {| open_handles := open_handles k; created := S (created k) |}).
Proof.
  intros Hk Hr. unfold info, with_open, fits_open, ret, close. rewrite Hr. simpl.
  now rewrite (close_after_open _ Hk).
Qed.

Lemma kernel_ok_step (l : list (handle * string)) (c : nat) :
  Forall (fun e => fst e < c) l -> Forall (fun e => fst e < S c) l.
Proof. apply Forall_impl. intros e He. lia. Qed.

Lemma path_of_last (l : list (handle * string)) (c : nat) (p : string) (rest : list (handle * string)) :
  Forall (fun e => fst e < c) l ->
  find (fun e => fst e =? c) (l ++ (c, p) :: rest) = Some (c, p).
Proof.
  induction 1 as [|e l He _ IH]; simpl.
  - now rewrite Nat.eqb_refl.
  - destruct (Nat.eqb_spec (fst e) c); [lia|exact IH].
Qed.

(** C3, as the notebooks have it: the handle of the [with] block of
    lesson 0 is closed when its cell ends, whether the block returns or
    raises; the two handles that the light-curve notebook opens with a
    plain [fits.open] are still open when their cell ends, and a later
    cell reads the light curve through the first of them. *)
Theorem fits_handles_scope :
  (forall d fits_file k, kernel_ok k ->
     open_handles (snd (Lesson0.cell_open_image d fits_file k)) = open_handles k)
  /\ (forall d lc_file tp_file k,
        kernel_ok k -> readable d lc_file = true -> readable d tp_file = true ->
        exists lc_fits tp_fits k',
          Lightcurves.cell_open_products d lc_file tp_file k
          = (Ok (lc_fits, tp_fits), k')
          /\ open_handles k'
             = open_handles k ++ [(lc_fits, lc_file); (tp_fits, tp_file)]
          /\ (1 < n_hdus d lc_file ->
              Lightcurves.cell_read_lightcurve d lc_fits k'
              = (Ok (HduData lc_file 1), k'))).
Proof.
  split.
  - intros d fits_file k Hk. unfold Lesson0.cell_open_image.
    apply with_open_restores; [exact Hk|]. intros h k1.
    apply open_image_body_kernel.
  - intros d lc_file tp_file k Hk Hlc Htp.
    unfold Lightcurves.cell_open_products.
    exists (S (created k)), (S (S (S (created k)))).
    eexists. split; [|split].
    + erewrite sbind_ok by (apply info_run; assumption).
      unfold sbind at 1. unfold fits_open at 1. simpl. rewrite Hlc.
      erewrite sbind_ok; cycle 1.
      { apply info_run; [|assumption]. unfold kernel_ok; simpl.
        apply Forall_app. split.
        - apply kernel_ok_step, kernel_ok_step, Hk.
        - repeat constructor. }
      unfold sbind, fits_open, ret. simpl. rewrite Htp. reflexivity.
    + simpl. rewrite <- app_assoc. reflexivity.
    + intros Hn. unfold Lightcurves.cell_read_lightcurve, sbind, getitem, path_of, ret.
      simpl. rewrite <- app_assoc. simpl.
      rewrite (@path_of_last (open_handles k) (S (created k)) lc_file
                 [(S (S (S (created k))), tp_file)]).
      * simpl. apply Nat.ltb_lt in Hn. now rewrite Hn.
      * apply kernel_ok_step, Hk.
Qed.

(** The light-curve notebook's cell leaves the handle of [lc_fits] open:
    file access is not scoped to the cell there. *)
Lemma open_products_not_scoped :
  ~ scoped (Lightcurves.cell_open_products disk0 "lc.fits" "tp.fits").
Proof.
  intros H. specialize (H kernel0 1). vm_compute in H.
  discriminate (H eq_refl).
Qed.

End FitsHandles.

Lemma fits_handles_scope_witness :
  Fits.kernel_ok Samples.kernel0
  /\ exists k',
       Lightcurves.cell_open_products Samples.disk0 "lc.fits" "tp.fits" Samples.kernel0
       = (Py.Ok (1, 3), k')
       /\ Fits.open_handles k' = [(1, "lc.fits"%string); (3, "tp.fits"%string)].
Proof.
  split; [constructor|].
  destruct fits_handles_scope as [_ H].
  destruct (H Samples.disk0 "lc.fits"%string "tp.fits"%string Samples.kernel0
              (Forall_nil _) eq_refl eq_refl)
    as [lc_fits [tp_fits [k' [Hrun [Hopen _]]]]].
  exists k'. split.
  - rewrite Hrun. f_equal. f_equal.
    assert (E : fst (Lightcurves.cell_open_products Samples.disk0 "lc.fits" "tp.fits"
                       Samples.kernel0) = Py.Ok (lc_fits, tp_fits)) by now rewrite Hrun.
    vm_compute in E. now injection E as <- <-.
  - rewrite Hopen.
    assert (E : fst (Lightcurves.cell_open_products Samples.disk0 "lc.fits" "tp.fits"
                       Samples.kernel0) = Py.Ok (lc_fits, tp_fits)) by now rewrite Hrun.
    vm_compute in E. now injection E as <- <-.
Defined.

(** ** The cell importing [stella] *)

Section ImportStella.
Import Py Classify.
Variable run : string -> pyenv -> pyenv.
Variable bare_commands : bool.


End ImportStella.


(** ** The quality-check loop *)

Section QualityCheck.
Import Py Np Classify.

Lemma all_finite_iff (f : ndarray npfloat) :
  np_all (np_isfinite f) = true <-> ~ has_non_finite f.
Proof.
  unfold np_all, np_isfinite, amap, has_non_finite; simpl.
  rewrite forallb_forall. split.
  - intros H [x [Hx Hf]].
    specialize (H (isfinite x) (in_map _ _ _ Hx)). congruence.
  - intros H b Hb. apply in_map_iff in Hb. destruct Hb as [x [<- Hx]].
    destruct (isfinite x) eqn:E; [reflexivity|]. exfalso. apply H. now exists x.
Qed.

(** One turn of the loop on a collection that has a first light curve. *)
Lemma quality_body_run (l0 : lightcurve) (rest : list lightcurve) (ns : namespace) :
  quality_body (PCollection (l0 :: rest)) ns
  = (Ok tt,
     {| lcs := lcs ns; lc := PLightCurve l0;
        stdout := stdout ns
                    ++ (if np_all (np_isfinite (flux l0)) then [] else [warning]) |}).
Proof.
  unfold quality_body, pick_first, sbind, set_lc, get_lc, lift, print, ret. simpl.
  destruct (np_all (np_isfinite (flux l0))); simpl; [|reflexivity].
  now rewrite app_nil_r.
Qed.

Lemma not_all_finite (f : ndarray npfloat) :
  np_all (np_isfinite f) = false -> has_non_finite f.
Proof.
  unfold np_all, np_isfinite, amap, has_non_finite; simpl.
  induction (data f) as [|x l IH]; simpl; [discriminate|].
  destruct (isfinite x) eqn:E; simpl.
  - intros H. destruct (IH H) as [y [Hy Hf]]. exists y. auto.
  - intros _. exists x. auto.
Qed.

Lemma quality_loop_run (items : list pyval) :
  Forall non_empty_collection items ->
  forall ns,
    exists outs ns',
      for_each items quality_body ns = (Ok tt, ns')
      /\ lcs ns' = lcs ns
      /\ stdout ns' = stdout ns ++ concat outs
      /\ Forall2 warns_iff_non_finite items outs.
Proof.
  induction 1 as [|item items [l0 [rest ->]] _ IH]; intros ns.
  - exists [], ns. simpl. rewrite app_nil_r. repeat split. constructor.
  - simpl. erewrite sbind_ok by apply quality_body_run.
    destruct (IH {| lcs := lcs ns; lc := PLightCurve l0;
                    stdout := stdout ns
                      ++ (if np_all (np_isfinite (flux l0)) then [] else [warning]) |})
      as [outs [ns' [Hrun [Hlcs [Hout Hall]]]]].
    exists ((if np_all (np_isfinite (flux l0)) then [] else [warning]) :: outs), ns'.
    split; [exact Hrun|]. split; [exact Hlcs|]. split.
    + rewrite Hout. simpl. now rewrite <- app_assoc.
    + constructor; [|exact Hall].
      exists l0, rest. split; [reflexivity|].
      destruct (np_all (np_isfinite (flux l0))) eqn:E.
      * right. split; [reflexivity|]. now apply all_finite_iff.
      * left. split; [reflexivity|]. now apply not_all_finite.
Qed.

Ltac nothing_printed :=
  split; [reflexivity | exists []; simpl; now rewrite app_nil_r].

(** Whatever the item, one turn of the loop leaves [lcs] alone and only
    appends to what is printed. *)
Lemma quality_body_frame (item : pyval) (ns : namespace) :
  lcs (snd (quality_body item ns)) = lcs ns
  /\ exists out, stdout (snd (quality_body item ns)) = stdout ns ++ out.
Proof.
  assert (Checked : forall l0 : lightcurve,
            let r := (if negb (np_all (np_isfinite (flux l0))) then print warning
                      else ret tt)
                       {| lcs := lcs ns; lc := PLightCurve l0; stdout := stdout ns |} in
            lcs (snd r) = lcs ns /\ exists out, stdout (snd r) = stdout ns ++ out).
  { intros l0. destruct (np_all (np_isfinite (flux l0))); simpl.
    - split; [reflexivity|]. exists []. now rewrite app_nil_r.
    - split; [reflexivity|]. now exists [warning]. }
  unfold quality_body, pick_first, sbind, set_lc, get_lc, lift.
  destruct item as [|table|[|l0 rest]|l0]; simpl.
  - nothing_printed.
  - destruct (0 <? length table); simpl; nothing_printed.
  - nothing_printed.
  - apply Checked.
  - destruct (len (flux l0)) as [n|e]; simpl; [|nothing_printed].
    destruct (0 <? n); simpl; [nothing_printed|apply Checked].
Qed.

Lemma quality_loop_frame (items : list pyval) :
  forall ns,
    lcs (snd (for_each items quality_body ns)) = lcs ns
    /\ exists out, stdout (snd (for_each items quality_body ns)) = stdout ns ++ out.
Proof.
  induction items as [|item items IH]; intros ns; simpl.
  - split; [reflexivity|]. exists []. now rewrite app_nil_r.
  - unfold sbind. destruct (quality_body_frame item ns) as [Hl [out Hout]].
    destruct (quality_body item ns) as [[u|e] ns1]; simpl in *.
    + destruct (IH ns1) as [Hl' [out' Hout']]. split; [congruence|].
      exists (out ++ out'). rewrite Hout', Hout. now rewrite app_assoc.
    + split; [exact Hl|]. now exists out.
Qed.

Lemma for_each_app (W A : Type) (body : A -> St W unit) (xs ys : list A) :
  forall w,
    for_each (xs ++ ys) body w
    = match for_each xs body w with
      | (Ok _, w') => for_each ys body w'
      | (Raise e, w') => (Raise e, w')
      end.
Proof.
  induction xs as [|x xs IH]; intros w; simpl; [reflexivity|].
  unfold sbind. destruct (body x w) as [[u|e] w']; [apply IH|reflexivity].
Qed.



(** On the sample, the warning is printed once, for the first collection. *)
Example quality_check_sample :
  stdout (snd (cell_quality_checks Samples.namespace0)) = [warning].
Proof. reflexivity. Qed.

End QualityCheck.

(** ** [remove_nans] and the filtering cell *)

Section RemoveNans.
Import Py Np Classify.

Lemma select_isnan (d : list npfloat) :
  (length (select d (map isnan d)) =? 0) = no_nan d.
Proof.
  induction d as [|x d IH]; simpl; [reflexivity|].
  destruct (isnan x); simpl; [reflexivity|exact IH].
Qed.

Lemma remove_nans_body_run (a : ndarray npfloat) (n c w : nat) (sh : list nat)
  (k : nat) (idx : list nat) :
  shape a = n :: c :: w :: sh -> k < n ->
  remove_nans_body a k idx = (Ok tt, if nan_free a k then idx ++ [k] else idx).
Proof.
  intros Hsh Hk. unfold remove_nans_body, getitem_k_all_all, getitem_row.
  rewrite Hsh. apply Nat.ltb_lt in Hk. rewrite Hk. simpl.
  unfold getitem_mask, np_isnan, amap; simpl.
  rewrite shape_eqb_refl. simpl. unfold len; simpl.
  rewrite select_isnan. unfold nan_free, no_nan. rewrite Hsh. reflexivity.
Qed.

Lemma remove_nans_loop (a : ndarray npfloat) (n c w : nat) (sh : list nat) :
  shape a = n :: c :: w :: sh ->
  forall m s idx, s + m <= n ->
    for_each (seq s m) (remove_nans_body a) idx
    = (Ok tt, idx ++ filter (nan_free a) (seq s m)).
Proof.
  intros Hsh. induction m as [|m IH]; intros s idx Hle; simpl.
  - now rewrite app_nil_r.
  - erewrite sbind_ok by (eapply remove_nans_body_run; [eassumption|lia]).
    rewrite IH by lia.
    destruct (nan_free a s); simpl; [|reflexivity].
    now rewrite <- app_assoc.
Qed.

Lemma remove_nans_run (a : ndarray npfloat) (n c w : nat) (sh : list nat) :
  shape a = n :: c :: w :: sh -> remove_nans a = Ok (nan_free_indices a).
Proof.
  intros Hsh. unfold remove_nans, shape0, range, nan_free_indices.
  rewrite Hsh. simpl.
  erewrite remove_nans_loop by (eassumption || lia). reflexivity.
Qed.

(** Whenever [remove_nans] returns, it returns the indices of the
    segments without NaN. *)
Lemma remove_nans_ok (a : ndarray npfloat) (idx : list nat) :
  remove_nans a = Ok idx -> idx = nan_free_indices a.
Proof.
  destruct (shape a) as [|n [|c [|w sh]]] eqn:Hsh.
  - unfold remove_nans, shape0. rewrite Hsh. discriminate.
  - destruct n as [|n].
    + unfold remove_nans, shape0, nan_free_indices. rewrite Hsh. simpl. congruence.
    + unfold remove_nans, shape0, range. rewrite Hsh. simpl.
      unfold sbind, remove_nans_body, getitem_k_all_all. rewrite Hsh. discriminate.
  - destruct n as [|n].
    + unfold remove_nans, shape0, nan_free_indices. rewrite Hsh. simpl. congruence.
    + unfold remove_nans, shape0, range. rewrite Hsh. simpl.
      unfold sbind, remove_nans_body, getitem_k_all_all. rewrite Hsh. discriminate.
  - erewrite remove_nans_run by eassumption. congruence.
Qed.

Section FancyIndexing.
Variable A : Type.

Lemma take_rows_data_ok (a : ndarray A) (n : nat) (sh : list nat) (idx : list nat) :
  shape a = n :: sh -> Forall (fun k => k < n) idx ->
  take_rows_data a idx
  = Ok (concat (map (fun k => chunk (size_of sh) k (data a)) idx)).
Proof.
  intros Hsh. induction 1 as [|k idx Hk _ IH]; simpl; [reflexivity|].
  unfold getitem_row. rewrite Hsh. apply Nat.ltb_lt in Hk. rewrite Hk. simpl.
  now rewrite IH.
Qed.

Lemma take_rows_data_inv (a : ndarray A) (n : nat) (sh : list nat) (idx : list nat) :
  shape a = n :: sh ->
  forall d, take_rows_data a idx = Ok d ->
    d = concat (map (fun k => chunk (size_of sh) k (data a)) idx).
Proof.
  intros Hsh. induction idx as [|k idx IH]; simpl; intros d Hd.
  - congruence.
  - unfold getitem_row in Hd. rewrite Hsh in Hd.
    destruct (k <? n); simpl in Hd; [|discriminate].
    destruct (take_rows_data a idx) as [d'|e]; simpl in Hd; [|discriminate].
    injection Hd as <-. now rewrite (IH d' eq_refl).
Qed.

Lemma getitem_list_inv (a v : ndarray A) (idx : list nat) :
  getitem_list a idx = Ok v ->
  exists n sh,
    shape a = n :: sh
    /\ v = {| shape := length idx :: sh;
             data := concat (map (fun k => chunk (size_of sh) k (data a)) idx) |}.
Proof.
  unfold getitem_list. destruct (shape a) as [|n sh] eqn:Hsh; [discriminate|].
  destruct (take_rows_data a idx) as [d|e] eqn:Hd; simpl; [|discriminate].
  intros E. injection E as <-. exists n, sh. split; [reflexivity|].
  f_equal. eapply take_rows_data_inv; eassumption.
Qed.

Lemma getitem_list_ok (a : ndarray A) (n : nat) (sh : list nat) (idx : list nat) :
  shape a = n :: sh -> Forall (fun k => k < n) idx ->
  getitem_list a idx
  = Ok {| shape := length idx :: sh;
          data := concat (map (fun k => chunk (size_of sh) k (data a)) idx) |}.
Proof.
  intros Hsh Hidx. unfold getitem_list. rewrite Hsh.
  erewrite take_rows_data_ok by eassumption. reflexivity.
Qed.
End FancyIndexing.

Lemma nan_free_indices_lt (a : ndarray npfloat) :
  Forall (fun k => k < hd 0 (shape a)) (nan_free_indices a).
Proof.
  apply Forall_forall. intros k Hk. unfold nan_free_indices in Hk.
  apply filter_In in Hk. destruct Hk as [Hk _]. apply in_seq in Hk. lia.
Qed.

(** The segments kept by [remove_nans] hold no NaN. *)
Lemma kept_segments_no_nan (a : ndarray npfloat) (n : nat) (sh : list nat) :
  shape a = n :: sh ->
  Forall (fun x => isnan x = false)
    (concat (map (fun k => chunk (size_of sh) k (data a)) (nan_free_indices a))).
Proof.
  intros Hsh. apply Forall_concat, Forall_map, Forall_forall. intros k Hk.
  unfold nan_free_indices in Hk. apply filter_In in Hk. destruct Hk as [_ Hk].
  unfold nan_free in Hk. rewrite Hsh in Hk. simpl in Hk.
  rewrite forallb_forall in Hk. apply Forall_forall. intros x Hx.
  specialize (Hk x Hx). now destruct (isnan x).
Qed.

Lemma filtered_by_indices (d d' : ndarray npfloat) (l l' : ndarray Z) :
  getitem_list d (nan_free_indices d) = Ok d' ->
  getitem_list l (nan_free_indices d) = Ok l' ->
  filtered d' l'.
Proof.
  intros Hd Hl.
  destruct (getitem_list_inv _ _ Hd) as [n [sh [Hsh ->]]].
  destruct (getitem_list_inv _ _ Hl) as [n' [sh' [Hsh' ->]]].
  split.
  - exists (length (nan_free_indices d)). split; reflexivity.
  - simpl. eapply kept_segments_no_nan; eassumption.
Qed.

Section Chunks.
Variable A : Type.

Lemma chunk_succ (s k : nat) (d : list A) :
  chunk s (S k) d = chunk s k (skipn s d).
Proof.
  unfold chunk. rewrite skipn_skipn. f_equal. f_equal. lia.
Qed.

Lemma chunk_app_succ (s k : nat) (l r : list A) :
  length l = s -> chunk s (S k) (l ++ r) = chunk s k r.
Proof.
  intros Hl. rewrite chunk_succ. f_equal.
  rewrite skipn_app, Hl, Nat.sub_diag. simpl.
  rewrite skipn_all2 by lia. reflexivity.
Qed.

Lemma chunk_app_zero (s : nat) (l r : list A) :
  length l = s -> chunk s 0 (l ++ r) = l.
Proof.
  intros Hl. unfold chunk. simpl.
  rewrite firstn_app, Hl, Nat.sub_diag. simpl.
  rewrite firstn_all2 by lia. apply app_nil_r.
Qed.

Lemma chunk_length (s k : nat) (d : list A) :
  (k + 1) * s <= length d -> length (chunk s k d) = s.
Proof.
  intros H. unfold chunk. rewrite length_firstn, length_skipn. nia.
Qed.

Lemma chunk_incl (s k : nat) (d : list A) (x : A) :
  In x (chunk s k d) -> In x d.
Proof.
  unfold chunk. intros H.
  rewrite <- (firstn_skipn (k * s) d). apply in_or_app. right.
  rewrite <- (firstn_skipn s (skipn (k * s) d)). apply in_or_app. now left.
Qed.

(** Cutting the concatenation of blocks of length [s] gives the blocks back. *)
Lemma chunks_of_concat (s : nat) (ls : list (list A)) :
  Forall (fun l => length l = s) ls ->
  map (fun k => chunk s k (concat ls)) (seq 0 (length ls)) = ls.
Proof.
  induction 1 as [|l ls Hl _ IH]; simpl; [reflexivity|].
  rewrite chunk_app_zero by exact Hl. f_equal.
  rewrite <- seq_shift, map_map.
  rewrite <- IH at 2. apply map_ext. intros k. now apply chunk_app_succ.
Qed.

(** Concatenating all the blocks of an array gives its elements back. *)
Lemma concat_chunks (s : nat) :
  forall n (d : list A), length d = n * s ->
    concat (map (fun k => chunk s k d) (seq 0 n)) = d.
Proof.
  induction n as [|n IH]; intros d Hd; simpl.
  - destruct d; [reflexivity|discriminate].
  - rewrite <- seq_shift, map_map.
    rewrite (map_ext _ (fun k => chunk s k (skipn s d))) by (intros k; apply chunk_succ).
    rewrite IH by (rewrite length_skipn; simpl in Hd; lia).
    unfold chunk. simpl. apply firstn_skipn.
Qed.

Lemma map_filter_pairs (B C : Type) (p : B -> bool) (g : A -> B) (g2 : A -> C)
  (ks : list A) :
  map g2 (filter (fun k => p (g k)) ks)
  = map snd (filter (fun q => p (fst q)) (combine (map g ks) (map g2 ks))).
Proof.
  induction ks as [|k ks IH]; simpl; [reflexivity|].
  destruct (p (g k)); simpl; now rewrite IH.
Qed.
End Chunks.

Lemma filter_all (A : Type) (p : A -> bool) (l : list A) :
  (forall x, In x l -> p x = true) -> filter p l = l.
Proof.
  induction l as [|x l IH]; intros H; simpl; [reflexivity|].
  rewrite (H x (or_introl eq_refl)). f_equal. apply IH. intros y Hy. apply H. now right.
Qed.

Lemma ndarray_eq (A : Type) (a b : ndarray A) :
  shape a = shape b -> data a = data b -> a = b.
Proof. destruct a, b. simpl. intros -> ->. reflexivity. Qed.

(** Indexing a well-formed array by the indices of its NaN-free segments
    keeps exactly the NaN-free segments. *)
Lemma segments_getitem_list (A : Type) (a : ndarray A) (n : nat) (sh : list nat)
  (idx : list nat) :
  shape a = n :: sh -> wf a -> Forall (fun k => k < n) idx ->
  segments {| shape := length idx :: sh;
              data := concat (map (fun k => chunk (size_of sh) k (data a)) idx) |}
  = map (fun k => chunk (size_of sh) k (data a)) idx.
Proof.
  intros Hsh Hwf Hidx. unfold segments. simpl.
  rewrite <- (length_map (fun k => chunk (size_of sh) k (data a)) idx).
  apply chunks_of_concat. apply Forall_map.
  eapply Forall_impl; [|exact Hidx]. intros k Hk. simpl in Hk.
  apply chunk_length. unfold wf in Hwf. rewrite Hwf, Hsh. simpl. nia.
Qed.

Lemma partition_restricted (d : ndarray npfloat) (l : ndarray Z) :
  partition_ok d l ->
  exists d' l',
    getitem_list d (nan_free_indices d) = Ok d'
    /\ getitem_list l (nan_free_indices d) = Ok l'
    /\ restricted d l d' l'
    /\ same_if_no_nan d l d' l'.
Proof.
  intros [Wd [Wl [n [c [w [sh [lsh [Hd Hl]]]]]]]].
  pose proof (nan_free_indices_lt d) as Hidx. rewrite Hd in Hidx. simpl in Hidx.
  eexists. eexists.
  split; [eapply getitem_list_ok; eassumption|].
  split; [eapply getitem_list_ok; eassumption|].
  split.
  - unfold restricted. simpl. rewrite Hd, Hl. simpl.
    split; [reflexivity|]. split; [reflexivity|].
    erewrite (@segments_getitem_list npfloat d) by eassumption.
    erewrite (@segments_getitem_list Z l) by eassumption.
    unfold segments, nan_free_indices. rewrite Hd, Hl. simpl.
    split.
    + rewrite filter_map_swap. f_equal. apply filter_ext. intros k.
      unfold nan_free, no_nan. now rewrite Hd.
    + rewrite <- map_filter_pairs. f_equal. apply filter_ext. intros k.
      unfold nan_free, no_nan. now rewrite Hd.
  - intros Hnn.
    assert (Hall : nan_free_indices d = seq 0 n).
    { unfold nan_free_indices. rewrite Hd. simpl. apply filter_all.
      intros k _. unfold nan_free. apply forallb_forall. intros x Hx.
      apply chunk_incl in Hx. unfold no_nan in Hnn.
      rewrite forallb_forall in Hnn. now apply Hnn. }
    rewrite Hall. split; apply ndarray_eq; simpl.
    + now rewrite length_seq, Hd.
    + apply concat_chunks. unfold wf in Wd. now rewrite Wd, Hd.
    + now rewrite length_seq, Hl.
    + apply concat_chunks. unfold wf in Wl. now rewrite Wl, Hl.
Qed.

Lemma cell_remove_nans_run (ds : FlareDataSet)
  (d1 d2 d3 : ndarray npfloat) (l1 l2 l3 : ndarray Z) :
  remove_nans (train_data ds) = Ok (nan_free_indices (train_data ds)) ->
  remove_nans (test_data ds) = Ok (nan_free_indices (test_data ds)) ->
  remove_nans (val_data ds) = Ok (nan_free_indices (val_data ds)) ->
  getitem_list (train_data ds) (nan_free_indices (train_data ds)) = Ok d1 ->
  getitem_list (train_labels ds) (nan_free_indices (train_data ds)) = Ok l1 ->
  getitem_list (test_data ds) (nan_free_indices (test_data ds)) = Ok d2 ->
  getitem_list (test_labels ds) (nan_free_indices (test_data ds)) = Ok l2 ->
  getitem_list (val_data ds) (nan_free_indices (val_data ds)) = Ok d3 ->
  getitem_list (val_labels ds) (nan_free_indices (val_data ds)) = Ok l3 ->
  cell_remove_nans ds
  = (Ok tt, {| train_data := d1; train_labels := l1;
               test_data := d2; test_labels := l2;
               val_data := d3; val_labels := l3 |}).
Proof.
  intros R1 R2 R3 D1 L1 D2 L2 D3 L3.
  unfold cell_remove_nans, sbind, eval.
  rewrite R1, R2, R3, D1. simpl. rewrite L1. simpl. rewrite D2. simpl.
  rewrite L2. simpl. rewrite D3. simpl. rewrite L3. reflexivity.
Qed.

(** What a completed run of the cell has computed. *)
Lemma cell_remove_nans_inv (ds ds' : FlareDataSet) :
  cell_remove_nans ds = (Ok tt, ds') ->
  getitem_list (train_data ds) (nan_free_indices (train_data ds)) = Ok (train_data ds')
  /\ getitem_list (train_labels ds) (nan_free_indices (train_data ds)) = Ok (train_labels ds')
  /\ getitem_list (test_data ds) (nan_free_indices (test_data ds)) = Ok (test_data ds')
  /\ getitem_list (test_labels ds) (nan_free_indices (test_data ds)) = Ok (test_labels ds')
  /\ getitem_list (val_data ds) (nan_free_indices (val_data ds)) = Ok (val_data ds')
  /\ getitem_list (val_labels ds) (nan_free_indices (val_data ds)) = Ok (val_labels ds').
Proof.
  unfold cell_remove_nans, sbind, eval.
  destruct (remove_nans (train_data ds)) as [i1|] eqn:H1; [|discriminate].
  destruct (remove_nans (test_data ds)) as [i2|] eqn:H2; [|discriminate].
  destruct (remove_nans (val_data ds)) as [i3|] eqn:H3; [|discriminate].
  apply remove_nans_ok in H1, H2, H3. subst i1 i2 i3.
  destruct (getitem_list (train_data ds) _) as [d1|] eqn:E1; [|discriminate].
  simpl.
  destruct (getitem_list (train_labels ds) _) as [l1|] eqn:E2; [|discriminate].
  simpl.
  destruct (getitem_list (test_data ds) _) as [d2|] eqn:E3; [|discriminate].
  simpl.
  destruct (getitem_list (test_labels ds) _) as [l2|] eqn:E4; [|discriminate].
  simpl.
  destruct (getitem_list (val_data ds) _) as [d3|] eqn:E5; [|discriminate].
  simpl.
  destruct (getitem_list (val_labels ds) _) as [l3|] eqn:E6; [|discriminate].
  simpl. intros E. injection E as <-. simpl. repeat split; reflexivity.
Qed.

(** C8: after the filtering cell has run, in each of the train, test and
    validation partitions the data and the labels have the same length, and
    the retained data hold no NaN. *)
Theorem filtered_partitions :
  forall ds ds' : FlareDataSet,
    cell_remove_nans ds = (Ok tt, ds') ->
    filtered (train_data ds') (train_labels ds')
    /\ filtered (test_data ds') (test_labels ds')
    /\ filtered (val_data ds') (val_labels ds').
Proof.
  intros ds ds' Hrun.
  destruct (@cell_remove_nans_inv ds ds' Hrun) as [D1 [L1 [D2 [L2 [D3 L3]]]]].
  split; [|split]; eapply filtered_by_indices; eassumption.
Qed.

(** C6, as the notebook has it: the partitions come from the library, and
    the filtering cell then restricts each of them: on a dataset as the
    library makes it the cell completes, and the data and the labels of each
    partition are the library's, restricted in order to the segments without
    NaN; a partition without any NaN is exactly as the library produced it. *)
Theorem filter_restricts_partitions :
  forall ds : FlareDataSet,
    dataset_ok ds ->
    exists ds',
      cell_remove_nans ds = (Ok tt, ds')
      /\ restricted (train_data ds) (train_labels ds) (train_data ds') (train_labels ds')
      /\ restricted (test_data ds) (test_labels ds) (test_data ds') (test_labels ds')
      /\ restricted (val_data ds) (val_labels ds) (val_data ds') (val_labels ds')
      /\ same_if_no_nan (train_data ds) (train_labels ds) (train_data ds') (train_labels ds')
      /\ same_if_no_nan (test_data ds) (test_labels ds) (test_data ds') (test_labels ds')
      /\ same_if_no_nan (val_data ds) (val_labels ds) (val_data ds') (val_labels ds').
Proof.
  intros ds [P1 [P2 P3]].
  assert (R : forall d l, partition_ok d l -> remove_nans d = Ok (nan_free_indices d)).
  { intros d l [_ [_ [n [c [w [sh [lsh [Hd _]]]]]]]].
    eapply remove_nans_run; eassumption. }
  destruct (partition_restricted P1) as [d1 [l1 [D1 [L1 [K1 S1]]]]].
  destruct (partition_restricted P2) as [d2 [l2 [D2 [L2 [K2 S2]]]]].
  destruct (partition_restricted P3) as [d3 [l3 [D3 [L3 [K3 S3]]]]].
  eexists. split.
  - apply cell_remove_nans_run; eauto.
  - exact (conj K1 (conj K2 (conj K3 (conj S1 (conj S2 S3))))).
Qed.

Lemma filter_restricts_partitions_witness :
  dataset_ok Samples.dataset0
  /\ exists ds',
       cell_remove_nans Samples.dataset0 = (Ok tt, ds')
       /\ segments (train_data ds') = [[Finite 3; Finite 4]]
       /\ test_data ds' = test_data Samples.dataset0.
Proof.
  assert (Hok : dataset_ok Samples.dataset0).
  { repeat split; try reflexivity;
      [exists 2, 2, 1, [], []|exists 1, 2, 1, [], []|exists 1, 2, 1, [], []];
      split; reflexivity. }
  split; [exact Hok|].
  destruct (filter_restricts_partitions Hok)
    as [ds' [Hrun [[_ [_ [Hseg _]]] [_ [_ [_ [Htest _]]]]]]].
  exists ds'. split; [exact Hrun|]. split.
  - rewrite Hseg. reflexivity.
  - exact (proj1 (Htest eq_refl)).
Defined.

(** The filtering cell changes a partition that holds a NaN: the train
    data and labels of the sample lose their first entry. *)
Lemma filter_changes_partitions :
  cell_remove_nans Samples.dataset0 = (Ok tt, Samples.dataset1)
  /\ train_data Samples.dataset1 <> train_data Samples.dataset0
  /\ train_labels Samples.dataset1 <> train_labels Samples.dataset0.
Proof.
  split; [reflexivity|]. split; discriminate.
Qed.

Lemma filtered_partitions_witness :
  cell_remove_nans Samples.dataset0 = (Ok tt, Samples.dataset1)
  /\ filtered (train_data Samples.dataset1) (train_labels Samples.dataset1).
Proof.
  split; [reflexivity|].
  exact (proj1 (@filtered_partitions Samples.dataset0 Samples.dataset1 eq_refl)).
Defined.

End RemoveNans.

(** ** [plot_confusion_matrix] *)

Section ConfusionMatrixFacts.
Import Py Np Sklearn Classify.

Lemma confusion_matrix_inv (y_true y_pred cm : ndarray Z) :
  confusion_matrix y_true y_pred = Ok cm ->
  cm = {| shape := [2; 2];
          data := [count_pairs 0 0 (data y_true) (data y_pred);
                   count_pairs 0 1 (data y_true) (data y_pred);
                   count_pairs 1 0 (data y_true) (data y_pred);
                   count_pairs 1 1 (data y_true) (data y_pred)] |}.
Proof.
  unfold confusion_matrix.
  destruct (negb (length (data y_true) =? length (data y_pred))); [discriminate|].
  destruct (length (data y_true) =? 0) eqn:E.
  - apply Nat.eqb_eq in E. apply length_zero_iff_nil in E. rewrite E.
    intros H. injection H as <-. reflexivity.
  - destruct (negb (existsb _ (data y_true))); [discriminate|].
    intros H. injection H as <-. reflexivity.
Qed.

(** The plotting part draws the matrix it is given. *)
Lemma render_matshow (cm_norm : ndarray npfloat) (fig : figure) :
  render cm_norm = Ok fig -> matshow fig = cm_norm.
Proof.
  unfold render. destruct (np_max cm_norm); [|discriminate]. simpl.
  destruct (shape0 cm_norm); [|discriminate]. simpl.
  destruct (for_each _ _ _) as [[u|e] ts]; [|discriminate].
  intros H. injection H as <-. reflexivity.
Qed.

Lemma plot_confusion_matrix_inv (D : Type) (cnn : network D) (input_data : D)
  (input_labels : ndarray Z) (fig : figure) :
  plot_confusion_matrix cnn input_data input_labels = Ok fig ->
  exists cm,
    confusion_matrix input_labels (binarize (predict cnn input_data)) = Ok cm
    /\ render (div_by_row_sums (amap of_Z cm)) = Ok fig.
Proof.
  unfold plot_confusion_matrix.
  destruct (confusion_matrix _ _) as [cm|e]; [|discriminate]. simpl.
  intros H. now exists cm.
Qed.

Lemma row_sum_nonzero (a b : Z) :
  (a + b <> 0)%Z -> Qeq_bool (0 + inject_Z a + inject_Z b) 0 = false.
Proof.
  intros H. destruct (Qeq_bool _ _) eqn:E; [|reflexivity].
  apply Qeq_bool_iff in E. exfalso. apply H.
  apply inject_Z_injective. rewrite inject_Z_plus, <- E. simpl. ring.
Qed.

(** A row of two counts divided by its sum. *)
Lemma normalized_pair (a b : Z) :
  (a + b <> 0)%Z ->
  let row := [fdiv (of_Z a) (sum_list [of_Z a; of_Z b]);
              fdiv (of_Z b) (sum_list [of_Z a; of_Z b])] in
  Forall2 (quotient_of (a + b)) [a; b] row /\ sums_to_one row.
Proof.
  intros H. unfold sum_list, of_Z; simpl.
  rewrite row_sum_nonzero by exact H.
  assert (Hs : ~ (inject_Z a + inject_Z b == 0)%Q).
  { intros E. apply H. apply inject_Z_injective. now rewrite inject_Z_plus. }
  split.
  - repeat constructor; eexists; (split; [reflexivity|]);
      rewrite inject_Z_plus; apply Qdiv_comp; try reflexivity; ring.
  - eexists. split; [reflexivity|]. field.
    intros E. apply Hs. rewrite <- E. ring.
Qed.



Lemma binarize1_above (q : Q) : binarize1 (Finite q) = 1%Z <-> (1 # 2 < q)%Q.
Proof.
  unfold binarize1, fgtb. destruct (Qle_bool q (1 # 2)) eqn:E; simpl.
  - apply Qle_bool_iff in E. split; [discriminate|].
    intros H. exfalso. exact (Qle_not_lt _ _ E H).
  - split; [|reflexivity]. intros _. apply Qnot_le_lt. intros H.
    apply Qle_bool_iff in H. congruence.
Qed.

Lemma count_pairs_binarize (i j : Z) (labels : list Z) (ps : list npfloat) :
  count_pairs i j labels (map binarize1 ps)
  = count_where (fun t p => (t =? i)%Z && (binarize1 p =? j)%Z) labels ps.
Proof.
  unfold count_pairs, count_where. f_equal.
  revert ps. induction labels as [|t labels IH]; intros [|p ps]; simpl;
    try reflexivity.
  destruct ((t =? i)%Z && (binarize1 p =? j)%Z); simpl; now rewrite IH.
Qed.

Lemma count_where_ext (f g : Z -> npfloat -> bool) (labels : list Z)
  (ps : list npfloat) :
  (forall t p, f t p = g t p) ->
  count_where f labels ps = count_where g labels ps.
Proof.
  intros H. unfold count_where. f_equal. f_equal. apply filter_ext.
  intros [t p]. apply H.
Qed.

(** C10: a probability is turned into the prediction 1 (flare) exactly
    when it is strictly greater than 0.5, and 0.5 itself into 0; in the
    confusion matrix of [plot_confusion_matrix] the column of predicted
    flares counts, for each true class, the samples whose probability is
    above 0.5, and the other column those whose probability is not. *)
Theorem flare_iff_above_half :
  (forall q : Q, binarize1 (Finite q) = 1%Z <-> (1 # 2 < q)%Q)
  /\ (forall p, binarize1 p = 1%Z \/ binarize1 p = 0%Z)
  /\ binarize1 (Finite (1 # 2)) = 0%Z
  /\ forall (D : Type) (cnn : network D) (input_data : D)
            (input_labels : ndarray Z) (fig : figure),
       plot_confusion_matrix cnn input_data input_labels = Ok fig ->
       exists cm,
         confusion_matrix input_labels (binarize (predict cnn input_data)) = Ok cm
         /\ forall i, i < 2 ->
              getitem2 cm i 1
              = Ok (count_where (fun t p => (t =? Z.of_nat i)%Z && fgtb p (1 # 2))
                      (data input_labels) (data (predict cnn input_data)))
              /\ getitem2 cm i 0
                 = Ok (count_where
                         (fun t p => (t =? Z.of_nat i)%Z && negb (fgtb p (1 # 2)))
                         (data input_labels) (data (predict cnn input_data))).
Proof.
  split; [exact binarize1_above|].
  split; [intros p; unfold binarize1; destruct (fgtb p (1 # 2)); auto|].
  split; [reflexivity|].
  intros D cnn input_data input_labels fig Hplot.
  destruct (@plot_confusion_matrix_inv D cnn input_data input_labels fig Hplot)
    as [cm [Hcm _]].
  exists cm. split; [exact Hcm|].
  rewrite (@confusion_matrix_inv _ _ cm Hcm). unfold binarize, amap; simpl.
  assert (H1 : forall i, count_pairs i 1 (data input_labels)
                 (map binarize1 (data (predict cnn input_data)))
               = count_where (fun t p => (t =? i)%Z && fgtb p (1 # 2))
                   (data input_labels) (data (predict cnn input_data))).
  { intros i. rewrite count_pairs_binarize. apply count_where_ext.
    intros t p. unfold binarize1. now destruct (fgtb p (1 # 2)). }
  assert (H0 : forall i, count_pairs i 0 (data input_labels)
                 (map binarize1 (data (predict cnn input_data)))
               = count_where (fun t p => (t =? i)%Z && negb (fgtb p (1 # 2)))
                   (data input_labels) (data (predict cnn input_data))).
  { intros i. rewrite count_pairs_binarize. apply count_where_ext.
    intros t p. unfold binarize1. now destruct (fgtb p (1 # 2)). }
  intros i Hi. destruct i as [|[|i]]; [| |lia]; unfold getitem2; simpl;
    rewrite H1, H0; split; reflexivity.
Qed.

Lemma flare_iff_above_half_witness :
  exists fig,
    plot_confusion_matrix Samples.cnn0 tt Samples.labels0 = Ok fig
    /\ exists cm,
         confusion_matrix Samples.labels0 (binarize (predict Samples.cnn0 tt)) = Ok cm
         /\ getitem2 cm 1 1 = Ok 1%Z /\ getitem2 cm 1 0 = Ok 1%Z.
Proof.
  destruct (plot_confusion_matrix Samples.cnn0 tt Samples.labels0) as [fig|e] eqn:Hplot;
    [|vm_compute in Hplot; discriminate Hplot].
  exists fig. split; [reflexivity|].
  destruct flare_iff_above_half as [_ [_ [_ H]]].
  destruct (H unit Samples.cnn0 tt Samples.labels0 fig Hplot) as [cm [Hcm Hcol]].
  exists cm. split; [exact Hcm|].
  destruct (Hcol 1 (le_n 2)) as [H1 H0]. split.
  - rewrite H1. reflexivity.
  - rewrite H0. reflexivity.
Defined.

End ConfusionMatrixFacts.

(** ** The loops of the notebooks *)

Section Loops.
Import Py Np Store Lightcurves Classify.

Section ForStatement.
Variables W A : Type.
Variable body : A -> St W unit.

(** Over a list, the [for] statement stops after one call of [next] per
    item and one more, and does what [for_each] does. *)
Lemma for_steps_list (xs0 : list A) :
  forall (xs : list A) (fuel : nat) (w : W),
    length xs < fuel ->
    for_steps fuel (iter_list xs0) xs body w = Some (for_each xs body w).
Proof.
  induction xs as [|x xs IH]; intros [|fuel] w Hf; simpl in *; try lia.
  - reflexivity.
  - unfold sbind. destruct (body x w) as [[u|e] w']; [|reflexivity].
    apply IH. lia.
Qed.

Lemma for_stmt_list (xs : list A) (w : W) :
  halts_with (fun fuel => for_stmt fuel (iter_list xs) body) (length xs) w
             (for_each xs body w).
Proof. intros fuel Hf. now apply for_steps_list. Qed.
End ForStatement.

Section ForRange.
Variable W : Type.
Variable body : nat -> St W unit.

Lemma for_steps_range (n : nat) :
  forall (m i fuel : nat) (w : W),
    i + m = n -> m < fuel ->
    for_steps fuel (iter_range n) i body w = Some (for_each (seq i m) body w).
Proof.
  induction m as [|m IH]; intros i [|fuel] w Hn Hf; simpl; try lia.
  - replace (i <? n) with false by (symmetry; apply Nat.ltb_ge; lia).
    reflexivity.
  - replace (i <? n) with true by (symmetry; apply Nat.ltb_lt; lia).
    unfold sbind. destruct (body i w) as [[u|e] w']; [|reflexivity].
    apply IH; lia.
Qed.

Lemma for_stmt_range (n : nat) (w : W) :
  halts_with (fun fuel => for_stmt fuel (iter_range n) body) n w
             (for_each (range n) body w).
Proof. intros fuel Hf. apply for_steps_range; [reflexivity|exact Hf]. Qed.
End ForRange.

(** An iterator that never stops uses up any number of calls: the bound
    on the loops below comes from what they iterate over. *)
Lemma count_never_stops (W : Type) :
  forall (fuel i : nat) (w : W),
    for_steps fuel iter_count i (fun _ => ret tt) w = None.
Proof. induction fuel as [|fuel IH]; intros i w; simpl; [reflexivity|apply IH]. Qed.



End Loops.

(** ** Building and using the aperture *)

Section ApertureFacts.
Import Py Np Store NpRef Lightcurves Aperture.

Lemma land_two (x : Z) : Z.land x 2 = if Z.testbit x 1 then 2%Z else 0%Z.
Proof.
  apply Z.bits_inj'. intros n Hn. rewrite Z.land_spec.
  change 2%Z with (2 ^ 1)%Z at 1. rewrite Z.pow2_bits_eqb by lia.
  destruct (Z.eqb_spec 1 n) as [<-|Hne].
  - rewrite andb_true_r. destruct (Z.testbit x 1); reflexivity.
  - rewrite andb_false_r. destruct (Z.testbit x 1).
    + change 2%Z with (2 ^ 1)%Z. rewrite Z.pow2_bits_eqb by lia.
      symmetry. now apply Z.eqb_neq.
    + now rewrite Z.bits_0.
Qed.

Lemma aperture_entry (x : Z) :
  let v := fdiv (of_Z (Z.land x 2)) (Finite 2) in
  feqb v 1 = Z.testbit x 1 /\ feqb v 0 = negb (Z.testbit x 1).
Proof.
  cbv zeta. rewrite land_two. destruct (Z.testbit x 1); split; reflexivity.
Qed.

(** X1: The aperture built from the flags is a 0/1 mask of the same shape: an
    entry is 1 exactly when the flag has the bit of value 2 set, and 0
    otherwise. *)
Theorem aperture_is_bit_mask :
  forall aperture_image : ndarray Z,
    shape (make_aperture aperture_image) = shape aperture_image
    /\ Forall2 (fun x v => feqb v 1 = Z.testbit x 1
                           /\ feqb v 0 = negb (Z.testbit x 1))
               (data aperture_image) (data (make_aperture aperture_image)).
Proof.
  intros ai. split; [reflexivity|]. unfold make_aperture, amap; simpl.
  induction (data ai) as [|x l IH]; simpl; constructor; [|exact IH].
  apply aperture_entry.
Qed.

Lemma offsets_of_make_aperture (aperture_image : ndarray Z) :
  aperture_offsets (make_aperture aperture_image) = flagged_offsets aperture_image.
Proof.
  unfold aperture_offsets, offsets_where, flagged_offsets, eq_scalar,
    make_aperture, amap; simpl.
  rewrite !length_map. apply filter_ext_in. intros k Hk. apply in_seq in Hk.
  rewrite map_map.
  rewrite (nth_map_in (fun x => feqb (fdiv (of_Z (Z.land x 2)) (Finite 2)) 1) 0%Z)
    by lia.
  apply aperture_entry.
Qed.

Lemma sum_of_selection (img ap : ndarray npfloat) :
  wf img -> wf ap -> shape img = shape ap ->
  sum_list (select (data img) (data (eq_scalar ap 1)))
  = sum_at img (aperture_offsets ap).
Proof.
  intros Wi Wa Hsh. unfold sum_at, aperture_offsets, offsets_where.
  rewrite (select_offsets NaN); [reflexivity|].
  unfold eq_scalar, amap; simpl. rewrite length_map. unfold wf in *. congruence.
Qed.

(** X2: With the aperture built from the flags, [aperture_phot] adds up the
    pixels of the frame whose flag has the bit of value 2 set. *)
Theorem aperture_phot_sums_flagged_pixels :
  forall (h : heap) (image aperture : ref) (img : ndarray npfloat)
         (aperture_image : ndarray Z),
    nth_error h image = Some (FloatArray img) ->
    nth_error h aperture = Some (FloatArray (make_aperture aperture_image)) ->
    wf img -> wf aperture_image -> shape img = shape aperture_image ->
    fst (aperture_phot image aperture h)
    = Ok (sum_at img (flagged_offsets aperture_image)).
Proof.
  intros h image aperture img ai Himg Hap Wi Wa Hsh.
  rewrite (@aperture_phot_run h image aperture img (make_aperture ai) Himg Hap).
  change (shape (make_aperture ai)) with (shape ai).
  rewrite Hsh, shape_eqb_refl. cbv zeta. cbn [fst].
  rewrite <- offsets_of_make_aperture. f_equal.
  apply sum_of_selection; [exact Wi| |exact Hsh].
  unfold wf, make_aperture, amap in *; simpl. now rewrite length_map.
Qed.

Lemma aperture_phot_sums_flagged_pixels_witness :
  wf Samples.frame0 /\ wf MoreSamples.flags0
  /\ fst (aperture_phot 0 1 MoreSamples.heap_flags)
     = Ok (sum_at Samples.frame0 [0; 3]).
Proof.
  split; [reflexivity|]. split; [reflexivity|].
  exact (@aperture_phot_sums_flagged_pixels MoreSamples.heap_flags 0 1
           Samples.frame0 MoreSamples.flags0 eq_refl eq_refl eq_refl eq_refl eq_refl).
Defined.

Lemma select_all (A : Type) (l : list A) :
  forall m, length l = length m -> (forall b, In b m -> b = true) ->
    select l m = l.
Proof.
  induction l as [|x l IH]; intros [|b m] Hlen Hm; simpl in *; try discriminate;
    [reflexivity|].
  rewrite (Hm b (or_introl eq_refl)). f_equal. apply IH; [lia|].
  intros c Hc. apply Hm. now right.
Qed.

(** X3: An aperture that is 1 everywhere, as the cutout notebook expects of
    its extension, makes [aperture_phot] the sum of the whole frame. *)
Theorem aperture_phot_full_aperture :
  forall (h : heap) (image aperture : ref) (img ap : ndarray npfloat),
    nth_error h image = Some (FloatArray img) ->
    nth_error h aperture = Some (FloatArray ap) ->
    wf img -> wf ap -> shape img = shape ap ->
    (forall x, In x (data ap) -> feqb x 1 = true) ->
    fst (aperture_phot image aperture h) = Ok (Np.np_sum img).
Proof.
  intros h image aperture img ap Himg Hap Wi Wa Hsh Hall.
  rewrite (@aperture_phot_run h image aperture img ap Himg Hap).
  rewrite Hsh, shape_eqb_refl. cbv zeta. cbn [fst]. unfold Np.np_sum.
  f_equal. f_equal. unfold eq_scalar, amap; cbn [data]. apply select_all.
  - rewrite length_map. unfold wf in *. congruence.
  - intros b Hb. apply in_map_iff in Hb. destruct Hb as [x [<- Hx]]. now apply Hall.
Qed.

Lemma aperture_phot_full_aperture_witness :
  shape Samples.frame0 = shape MoreSamples.aperture_all
  /\ fst (aperture_phot 0 1 MoreSamples.heap_all) = Ok (Np.np_sum Samples.frame0).
Proof.
  split; [reflexivity|].
  apply (@aperture_phot_full_aperture MoreSamples.heap_all 0 1
           Samples.frame0 MoreSamples.aperture_all eq_refl eq_refl eq_refl eq_refl eq_refl).
  intros x Hx. simpl in Hx.
  destruct Hx as [<-|[<-|[<-|[<-|[]]]]]; reflexivity.
Defined.

Lemma fadd_nan_l (x : npfloat) : fadd NaN x = NaN.
Proof. now destruct x. Qed.

Lemma fadd_nan_r (x : npfloat) : fadd x NaN = NaN.
Proof. now destruct x. Qed.

Lemma fold_fadd_nan (l : list npfloat) : fold_left fadd l NaN = NaN.
Proof.
  induction l as [|x l IH]; [reflexivity|].
  change (fold_left fadd l (fadd NaN x) = NaN). now rewrite fadd_nan_l.
Qed.

Lemma sum_with_nan (l : list npfloat) :
  In NaN l -> sum_list l = NaN.
Proof.
  unfold sum_list. generalize (Finite 0).
  induction l as [|x l IH]; intros acc H; [destruct H|]. destruct H as [E|H].
  - subst x. change (fold_left fadd l (fadd acc NaN) = NaN).
    rewrite fadd_nan_r. apply fold_fadd_nan.
  - simpl. now apply IH.
Qed.

(** X4: A NaN pixel inside the aperture makes the flux of the frame NaN: the
    sum does not skip it. *)
Theorem aperture_phot_nan_pixel :
  forall (h : heap) (image aperture : ref) (img ap : ndarray npfloat) (k : nat),
    nth_error h image = Some (FloatArray img) ->
    nth_error h aperture = Some (FloatArray ap) ->
    wf img -> wf ap -> shape img = shape ap ->
    In k (aperture_offsets ap) -> flat (Finite 0) img k = NaN ->
    fst (aperture_phot image aperture h) = Ok NaN.
Proof.
  intros h image aperture img ap k Himg Hap Wi Wa Hsh Hk Hnan.
  rewrite (@aperture_phot_run h image aperture img ap Himg Hap).
  rewrite Hsh, shape_eqb_refl. cbv zeta. cbn [fst]. f_equal.
  rewrite (sum_of_selection Wi Wa Hsh). unfold sum_at. apply sum_with_nan.
  apply in_map_iff. exists k. split; [|exact Hk].
  unfold flat in *. rewrite <- Hnan. apply nth_indep.
  apply aperture_offsets_spec in Hk. destruct Hk as [Hk _].
  unfold wf in *. rewrite Wi, Hsh, <- Wa. exact Hk.
Qed.

Lemma aperture_phot_nan_pixel_witness :
  In 3 (aperture_offsets Samples.aperture0)
  /\ fst (aperture_phot 1 2 MoreSamples.heap2) = Ok NaN.
Proof.
  assert (H : In 3 (aperture_offsets Samples.aperture0)) by (right; now left).
  split; [exact H|].
  exact (@aperture_phot_nan_pixel MoreSamples.heap2 1 2 MoreSamples.frame_nan
           Samples.aperture0 3 eq_refl eq_refl eq_refl eq_refl eq_refl H eq_refl).
Defined.

End ApertureFacts.

(** ** One flux per frame *)

Section FluxPerFrame.
Import Py Np Store NpRef Lightcurves Aperture.

Lemma extends_refl (h : heap) : extends h h.
Proof. intros r o H. exact H. Qed.

Lemma extends_app (h more : heap) : extends h (h ++ more).
Proof.
  intros r o H. rewrite nth_error_app1; [exact H|].
  apply nth_error_Some. congruence.
Qed.

Lemma extends_trans (h1 h2 h3 : heap) :
  extends h1 h2 -> extends h2 h3 -> extends h1 h3.
Proof. intros H12 H23 r o H. apply H23, H12, H. Qed.

Lemma frames_are_extends (h h' : heap) (sh : list nat) (frames : list ref)
  (imgs : list (ndarray npfloat)) :
  extends h h' -> frames_are h sh frames imgs -> frames_are h' sh frames imgs.
Proof.
  intros Hext. unfold frames_are. apply Forall2_impl.
  intros r img [Hr Hrest]. split; [apply Hext, Hr|exact Hrest].
Qed.

(** The loop behind the map: every frame of the aperture's shape adds its
    flux to the list. *)
Lemma flux_loop (aperture : ref) (ap : ndarray npfloat) :
  wf ap ->
  forall (frames : list ref) (imgs : list (ndarray npfloat)) (h : heap)
         (out : list npfloat),
    nth_error h aperture = Some (FloatArray ap) ->
    frames_are h (shape ap) frames imgs ->
    exists h',
      for_each frames (phot_body aperture) (h, out)
      = (Ok tt, (h', out ++ map (fun img => sum_at img (aperture_offsets ap)) imgs))
      /\ extends h h'.
Proof.
  intros Wa. induction frames as [|x frames IH]; intros imgs h out Hap Hfr.
  - inversion Hfr; subst. exists h. simpl. rewrite app_nil_r.
    split; [reflexivity|apply extends_refl].
  - inversion Hfr as [|x' img frames' imgs' [Hx [Hsh Wi]] Hrest]; subst.
    simpl. unfold sbind, phot_body at 1. cbn [fst snd].
    rewrite (@aperture_phot_run h x aperture img ap Hx Hap).
    rewrite Hsh, shape_eqb_refl. cbv zeta.
    rewrite (sum_of_selection Wi Wa Hsh).
    set (h1 := h ++ _ ++ _).
    assert (E1 : extends h h1) by apply extends_app.
    destruct (IH imgs' h1 (out ++ [sum_at img (aperture_offsets ap)])
                (E1 _ _ Hap) (frames_are_extends E1 Hrest))
      as [h' [Hrun E2]].
    exists h'. split.
    + rewrite Hrun. simpl. now rewrite <- app_assoc.
    + exact (extends_trans E1 E2).
Qed.

(** X5: Mapping [aperture_phot] over the frames gives one flux per frame, in
    the order of the frames, each the sum of that frame over the aperture;
    the frames and the aperture stay in the store as they were. *)
Theorem cell_flux_one_per_frame :
  forall (h : heap) (frames : list ref) (aperture : ref)
         (ap : ndarray npfloat) (imgs : list (ndarray npfloat)),
    nth_error h aperture = Some (FloatArray ap) -> wf ap ->
    frames_are h (shape ap) frames imgs ->
    fst (cell_flux frames aperture h)
    = Ok (map (fun img => sum_at img (aperture_offsets ap)) imgs)
    /\ extends h (snd (cell_flux frames aperture h)).
Proof.
  intros h frames aperture ap imgs Hap Wa Hfr.
  destruct (@flux_loop aperture ap Wa frames imgs h [] Hap Hfr) as [h' [Hrun Hext]].
  unfold cell_flux. rewrite Hrun. simpl. split; [reflexivity|exact Hext].
Qed.

Lemma cell_flux_one_per_frame_witness :
  frames_are MoreSamples.heap2 (shape Samples.aperture0) [0; 1]
    [Samples.frame0; MoreSamples.frame_nan]
  /\ fst (cell_flux [0; 1] 2 MoreSamples.heap2)
     = Ok [sum_at Samples.frame0 (aperture_offsets Samples.aperture0);
           sum_at MoreSamples.frame_nan (aperture_offsets Samples.aperture0)].
Proof.
  assert (H : frames_are MoreSamples.heap2 (shape Samples.aperture0) [0; 1]
                [Samples.frame0; MoreSamples.frame_nan]).
  { repeat constructor. }
  split; [exact H|].
  exact (proj1 (@cell_flux_one_per_frame MoreSamples.heap2 [0; 1] 2
                  Samples.aperture0 _ eq_refl eq_refl H)).
Defined.



End FluxPerFrame.

(** ** More on [remove_nans] and the filtering cell *)

Section RemoveNansMore.
Import Py Np Classify.

Lemma filter_seq_sorted (f : nat -> bool) :
  forall n s, StronglySorted lt (filter f (seq s n)).
Proof.
  induction n as [|n IH]; intros s; simpl; [constructor|].
  destruct (f s); [|apply IH]. constructor; [apply IH|].
  apply Forall_forall. intros k Hk. apply filter_In in Hk.
  destruct Hk as [Hk _]. apply in_seq in Hk. lia.
Qed.

(** X7: What the docstring of [remove_nans] promises: whenever the function
    returns, its list holds exactly the indices, along the first axis, of
    the segments without NaN, each once and in increasing order. *)
Theorem remove_nans_indices :
  forall (input_data : ndarray npfloat) (idx : list nat),
    remove_nans input_data = Ok idx ->
    (forall k, In k idx
               <-> k < hd 0 (shape input_data) /\ nan_free input_data k = true)
    /\ StronglySorted lt idx.
Proof.
  intros a idx H. apply remove_nans_ok in H. subst idx. unfold nan_free_indices.
  split; [|apply filter_seq_sorted].
  intros k. rewrite filter_In, in_seq. split.
  - intros [[_ Hk] Hf]. split; [exact Hk|exact Hf].
  - intros [Hk Hf]. split; [lia|exact Hf].
Qed.

Lemma remove_nans_indices_witness :
  remove_nans (train_data Samples.dataset0) = Ok [1]
  /\ (In 1 [1] <-> 1 < 2 /\ nan_free (train_data Samples.dataset0) 1 = true)
  /\ StronglySorted lt [1].
Proof.
  split; [reflexivity|].
  destruct (@remove_nans_indices (train_data Samples.dataset0) [1] eq_refl)
    as [Hin Hsorted].
  split; [exact (Hin 1)|exact Hsorted].
Defined.

(** X8: The edges of [remove_nans]: an array without axes has no first
    extent (IndexError); an array whose first axis is empty gives the empty
    list, whatever its other axes; an array with one or two axes and a
    non-empty first axis cannot be sliced as [input_data[k, :, :]]
    (IndexError). *)
Theorem remove_nans_edges :
  forall input_data : ndarray npfloat,
    (shape input_data = [] -> remove_nans input_data = Raise IndexError)
    /\ (hd 1 (shape input_data) = 0 -> remove_nans input_data = Ok [])
    /\ (forall n, shape input_data = [S n] -> remove_nans input_data = Raise IndexError)
    /\ (forall n c, shape input_data = [S n; c] ->
                    remove_nans input_data = Raise IndexError).
Proof.
  intros a. unfold remove_nans, shape0, range.
  split; [|split; [|split]].
  - intros ->. reflexivity.
  - destruct (shape a) as [|n sh]; simpl; [discriminate|]. intros ->. reflexivity.
  - intros n Hsh. rewrite Hsh. simpl.
    unfold sbind, remove_nans_body, getitem_k_all_all. now rewrite Hsh.
  - intros n c Hsh. rewrite Hsh. simpl.
    unfold sbind, remove_nans_body, getitem_k_all_all. now rewrite Hsh.
Qed.

Lemma remove_nans_edges_witness :
  remove_nans {| shape := []; data := [Finite 1] |} = Raise IndexError
  /\ remove_nans {| shape := [0; 5]; data := [] |} = Ok []
  /\ remove_nans {| shape := [2]; data := [Finite 1; NaN] |} = Raise IndexError.
Proof.
  split; [|split].
  - exact (proj1 (remove_nans_edges {| shape := []; data := [Finite 1] |}) eq_refl).
  - exact (proj1 (proj2 (remove_nans_edges {| shape := [0; 5]; data := [] |})) eq_refl).
  - exact (proj1 (proj2 (proj2
             (remove_nans_edges {| shape := [2]; data := [Finite 1; NaN] |})))
             1 eq_refl).
Defined.

Lemma length_concat_blocks (A : Type) (s : nat) (ls : list (list A)) :
  Forall (fun l => length l = s) ls -> length (concat ls) = length ls * s.
Proof.
  induction 1 as [|l ls Hl _ IH]; simpl; [reflexivity|].
  rewrite length_app, IH, Hl. reflexivity.
Qed.

Lemma wf_getitem_list (A : Type) (a : ndarray A) (n : nat) (sh : list nat)
  (idx : list nat) :
  shape a = n :: sh -> wf a -> Forall (fun k => k < n) idx ->
  wf {| shape := length idx :: sh;
        data := concat (map (fun k => chunk (size_of sh) k (data a)) idx) |}.
Proof.
  intros Hsh Hwf Hidx. unfold wf. simpl.
  rewrite (@length_concat_blocks A (size_of sh)).
  - now rewrite length_map.
  - apply Forall_map. eapply Forall_impl; [|exact Hidx]. intros k Hk. simpl in Hk.
    apply chunk_length. unfold wf in Hwf. rewrite Hwf, Hsh. simpl. nia.
Qed.

(** The partition that comes out of the filter is again a partition as
    the library makes it, and it holds no NaN. *)
Lemma filtered_partition_ok (d d' : ndarray npfloat) (l l' : ndarray Z) :
  partition_ok d l ->
  getitem_list d (nan_free_indices d) = Ok d' ->
  getitem_list l (nan_free_indices d) = Ok l' ->
  partition_ok d' l' /\ no_nan (data d') = true.
Proof.
  intros [Wd [Wl [n [c [w [sh [lsh [Hd Hl]]]]]]]] Ed El.
  pose proof (nan_free_indices_lt d) as Hidx. rewrite Hd in Hidx. simpl in Hidx.
  erewrite getitem_list_ok in Ed by eassumption.
  erewrite getitem_list_ok in El by eassumption.
  injection Ed as <-. injection El as <-.
  split.
  - split; [eapply wf_getitem_list; eassumption|].
    split; [eapply wf_getitem_list; eassumption|].
    exists (length (nan_free_indices d)), c, w, sh, lsh. split; reflexivity.
  - simpl. unfold no_nan. apply forallb_forall. intros x Hx.
    pose proof (@kept_segments_no_nan d n (c :: w :: sh) Hd) as Hk.
    rewrite Forall_forall in Hk. now rewrite (Hk x Hx).
Qed.

Lemma refilter_partition (d d' : ndarray npfloat) (l l' : ndarray Z) :
  partition_ok d l ->
  getitem_list d (nan_free_indices d) = Ok d' ->
  getitem_list l (nan_free_indices d) = Ok l' ->
  remove_nans d' = Ok (nan_free_indices d')
  /\ getitem_list d' (nan_free_indices d') = Ok d'
  /\ getitem_list l' (nan_free_indices d') = Ok l'.
Proof.
  intros P Ed El.
  destruct (filtered_partition_ok P Ed El) as [P' Hnn].
  destruct (partition_restricted P') as [d2 [l2 [E1 [E2 [_ Hsame]]]]].
  destruct (Hsame Hnn) as [-> ->].
  split; [|split; assumption].
  destruct P' as [_ [_ [n [c [w [sh [lsh [Hd' _]]]]]]]].
  eapply remove_nans_run; eassumption.
Qed.

(** X9: Running the filtering cell a second time changes nothing: on a
    dataset as the library makes it, the result of the cell is a fixed
    point of the cell. *)
Theorem filter_cell_idempotent :
  forall ds ds' : FlareDataSet,
    dataset_ok ds ->
    cell_remove_nans ds = (Ok tt, ds') ->
    cell_remove_nans ds' = (Ok tt, ds').
Proof.
  intros ds ds' [P1 [P2 P3]] Hrun.
  destruct (@cell_remove_nans_inv ds ds' Hrun) as [D1 [L1 [D2 [L2 [D3 L3]]]]].
  destruct (refilter_partition P1 D1 L1) as [R1 [D1' L1']].
  destruct (refilter_partition P2 D2 L2) as [R2 [D2' L2']].
  destruct (refilter_partition P3 D3 L3) as [R3 [D3' L3']].
  rewrite (@cell_remove_nans_run ds' _ _ _ _ _ _ R1 R2 R3 D1' L1' D2' L2' D3' L3').
  now destruct ds'.
Qed.

Lemma filter_cell_idempotent_witness :
  dataset_ok Samples.dataset0
  /\ cell_remove_nans Samples.dataset0 = (Ok tt, Samples.dataset1)
  /\ cell_remove_nans Samples.dataset1 = (Ok tt, Samples.dataset1).
Proof.
  assert (Hok : dataset_ok Samples.dataset0).
  { repeat split; try reflexivity;
      [exists 2, 2, 1, [], []|exists 1, 2, 1, [], []|exists 1, 2, 1, [], []];
      split; reflexivity. }
  split; [exact Hok|]. split; [reflexivity|].
  exact (@filter_cell_idempotent Samples.dataset0 Samples.dataset1 Hok eq_refl).
Defined.

Lemma take_rows_data_out_of_range (A : Type) (a : ndarray A) (m : nat)
  (sh : list nat) (idx : list nat) (k : nat) :
  shape a = m :: sh -> In k idx -> m <= k ->
  take_rows_data a idx = Raise IndexError.
Proof.
  intros Hsh Hin Hk. induction idx as [|j idx IH]; [destruct Hin|].
  simpl. unfold getitem_row. rewrite Hsh.
  destruct (j <? m) eqn:Hj; [|reflexivity]. simpl.
  destruct Hin as [->|Hin].
  - apply Nat.ltb_lt in Hj. lia.
  - now rewrite (IH Hin).
Qed.

(** X10: The cell is not all-or-nothing.  When the train labels are too short
    for one of the kept indices, the cell stops with numpy's IndexError at
    the second assignment: the train data are already the filtered ones,
    while the train labels and the other partitions are still the
    library's. *)
Theorem filter_cell_stops_half_way :
  forall (ds : FlareDataSet) (m k : nat) (lsh : list nat),
    (exists n c w sh, shape (train_data ds) = n :: c :: w :: sh) ->
    (exists n c w sh, shape (test_data ds) = n :: c :: w :: sh) ->
    (exists n c w sh, shape (val_data ds) = n :: c :: w :: sh) ->
    shape (train_labels ds) = m :: lsh ->
    In k (nan_free_indices (train_data ds)) -> m <= k ->
    exists d1,
      getitem_list (train_data ds) (nan_free_indices (train_data ds)) = Ok d1
      /\ cell_remove_nans ds
         = (Raise IndexError,
            {| train_data := d1; train_labels := train_labels ds;
               test_data := test_data ds; test_labels := test_labels ds;
               val_data := val_data ds; val_labels := val_labels ds |}).
Proof.
  intros ds m k lsh [n1 [c1 [w1 [sh1 H1]]]] [n2 [c2 [w2 [sh2 H2]]]]
    [n3 [c3 [w3 [sh3 H3]]]] Hl Hin Hk.
  pose proof (nan_free_indices_lt (train_data ds)) as Hidx.
  rewrite H1 in Hidx. simpl in Hidx.
  eexists. split; [eapply getitem_list_ok; eassumption|].
  unfold cell_remove_nans, sbind, eval.
  erewrite (@remove_nans_run (train_data ds)) by eassumption.
  erewrite (@remove_nans_run (test_data ds)) by eassumption.
  erewrite (@remove_nans_run (val_data ds)) by eassumption.
  erewrite (@getitem_list_ok npfloat (train_data ds)) by eassumption.
  simpl. unfold getitem_list at 1. rewrite Hl.
  erewrite take_rows_data_out_of_range by eassumption. reflexivity.
Qed.

Lemma filter_cell_stops_half_way_witness :
  In 1 (nan_free_indices (train_data MoreSamples.dataset_short))
  /\ fst (cell_remove_nans MoreSamples.dataset_short) = Raise IndexError
  /\ train_data (snd (cell_remove_nans MoreSamples.dataset_short))
     = train_data Samples.dataset1
  /\ train_labels (snd (cell_remove_nans MoreSamples.dataset_short))
     = train_labels MoreSamples.dataset_short.
Proof.
  assert (Hin : In 1 (nan_free_indices (train_data MoreSamples.dataset_short)))
    by (now left).
  split; [exact Hin|].
  destruct (@filter_cell_stops_half_way MoreSamples.dataset_short 1 1 []
              (ex_intro _ 2 (ex_intro _ 2 (ex_intro _ 1 (ex_intro _ [] eq_refl))))
              (ex_intro _ 1 (ex_intro _ 2 (ex_intro _ 1 (ex_intro _ [] eq_refl))))
              (ex_intro _ 1 (ex_intro _ 2 (ex_intro _ 1 (ex_intro _ [] eq_refl))))
              eq_refl Hin (le_n 1))
    as [d1 [Hd1 Hrun]].
  rewrite Hrun. simpl. split; [reflexivity|]. split; [|reflexivity].
  vm_compute in Hd1. now injection Hd1 as <-.
Defined.

End RemoveNansMore.

(** ** More on [plot_confusion_matrix] *)

Section ConfusionMatrixMore.
Import Py Np Sklearn Classify.

Lemma confusion_matrix_lengths (y_true y_pred cm : ndarray Z) :
  confusion_matrix y_true y_pred = Ok cm ->
  length (data y_true) = length (data y_pred).
Proof.
  unfold confusion_matrix.
  destruct (length (data y_true) =? length (data y_pred)) eqn:E; simpl;
    [|discriminate].
  intros _. now apply Nat.eqb_eq.
Qed.

Lemma binarized_columns (i : Z) (labels : list Z) :
  forall ps : list npfloat,
    length labels = length ps ->
    length (filter (fun tp => (fst tp =? i)%Z && (snd tp =? 0)%Z)
                   (combine labels (map binarize1 ps)))
    + length (filter (fun tp => (fst tp =? i)%Z && (snd tp =? 1)%Z)
                     (combine labels (map binarize1 ps)))
    = length (filter (fun t => (t =? i)%Z) labels).
Proof.
  induction labels as [|t labels IH]; intros [|p ps] Hlen;
    try discriminate Hlen; [reflexivity|].
  injection Hlen as Hlen. specialize (IH ps Hlen).
  cbn [map combine filter fst snd].
  assert (Hb : binarize1 p = 0%Z \/ binarize1 p = 1%Z)
    by (unfold binarize1; destruct (fgtb p (1 # 2)); auto).
  destruct Hb as [-> | ->]; destruct (t =? i)%Z; simpl; lia.
Qed.

(** X11: Thresholding loses no sample: whatever the probabilities, NaN included,
    every sample whose label is 0 or 1 is counted in exactly one of the two
    columns of its row, so that a row of the confusion matrix adds up to
    the number of samples of its class. *)
Theorem every_sample_counted_once :
  forall (D : Type) (cnn : network D) (input_data : D)
         (input_labels : ndarray Z) (fig : figure),
    plot_confusion_matrix cnn input_data input_labels = Ok fig ->
    exists cm,
      confusion_matrix input_labels (binarize (predict cnn input_data)) = Ok cm
      /\ forall i, i < 2 ->
           exists a b,
             getitem2 cm i 0 = Ok a /\ getitem2 cm i 1 = Ok b
             /\ (a + b)%Z
                = Z.of_nat (length (filter (fun t => (t =? Z.of_nat i)%Z)
                                           (data input_labels))).
Proof.
  intros D cnn input_data input_labels fig Hplot.
  destruct (@plot_confusion_matrix_inv D cnn input_data input_labels fig Hplot)
    as [cm [Hcm _]].
  exists cm. split; [exact Hcm|].
  pose proof (@confusion_matrix_lengths _ _ cm Hcm) as Hlen.
  rewrite (@confusion_matrix_inv _ _ cm Hcm).
  unfold binarize, amap in *; simpl in *. rewrite length_map in Hlen.
  intros i Hi. destruct i as [|[|i]]; [| |lia]; unfold getitem2; simpl;
    eexists; eexists; (split; [reflexivity|]); (split; [reflexivity|]);
    unfold count_pairs; rewrite <- Nat2Z.inj_add; f_equal;
    now apply binarized_columns.
Qed.

Lemma every_sample_counted_once_witness :
  exists fig,
    plot_confusion_matrix Samples.cnn0 tt Samples.labels0 = Ok fig
    /\ exists cm a b,
         confusion_matrix Samples.labels0 (binarize (predict Samples.cnn0 tt)) = Ok cm
         /\ getitem2 cm 1 0 = Ok a /\ getitem2 cm 1 1 = Ok b /\ (a + b = 2)%Z.
Proof.
  destruct (plot_confusion_matrix Samples.cnn0 tt Samples.labels0) as [fig|e] eqn:Hplot;
    [|vm_compute in Hplot; discriminate Hplot].
  exists fig. split; [reflexivity|].
  destruct (@every_sample_counted_once unit Samples.cnn0 tt Samples.labels0 fig Hplot)
    as [cm [Hcm Hrow]].
  destruct (Hrow 1 (le_n 2)) as [a [b [Ha [Hb Hab]]]].
  exists cm, a, b. repeat split; assumption.
Defined.

Lemma fmax_nan_l (x : npfloat) : fmax NaN x = NaN.
Proof. now destruct x. Qed.

Lemma fmax_nan_r (x : npfloat) : fmax x NaN = NaN.
Proof. now destruct x. Qed.

Lemma fltb_nan_r (x : npfloat) : fltb x NaN = false.
Proof. now destruct x. Qed.

(** What the plotting part draws for a 2x2 matrix: the four numbers, each
    in white when it is below half the maximum and in black otherwise. *)
Lemma render_2x2 (x00 x01 x10 x11 thresh : npfloat) :
  thresh = fdiv (fmax (fmax (fmax x00 x01) x10) x11) (Finite 2) ->
  render {| shape := [2; 2]; data := [x00; x01; x10; x11] |}
  = Ok {| matshow := {| shape := [2; 2]; data := [x00; x01; x10; x11] |};
          cmap := "binary_r";
          title := "Confusion matrix";
          xticks := [0; 1]; xticklabels := ["Flare"; "No Flare"]%string;
          yticks := [0; 1]; yticklabels := ["Flare"; "No Flare"]%string;
          xlabel := "Predicted"; ylabel := "True";
          texts :=
            [{| text_x := 0; text_y := 0; text_value := x00; text_fmt := ".2f";
                text_color := if fltb x00 thresh then "white"%string
                              else "black"%string |};
             {| text_x := 1; text_y := 0; text_value := x01; text_fmt := ".2f";
                text_color := if fltb x01 thresh then "white"%string
                              else "black"%string |};
             {| text_x := 0; text_y := 1; text_value := x10; text_fmt := ".2f";
                text_color := if fltb x10 thresh then "white"%string
                              else "black"%string |};
             {| text_x := 1; text_y := 1; text_value := x11; text_fmt := ".2f";
                text_color := if fltb x11 thresh then "white"%string
                              else "black"%string |}] |}.
Proof. intros ->. reflexivity. Qed.

Lemma thresh_nan (x00 x01 x10 x11 : npfloat) :
  x00 = NaN \/ x01 = NaN \/ x10 = NaN \/ x11 = NaN ->
  fdiv (fmax (fmax (fmax x00 x01) x10) x11) (Finite 2) = NaN.
Proof.
  intros [-> | [-> | [-> | ->]]];
    rewrite ?fmax_nan_r, ?fmax_nan_l; reflexivity.
Qed.

Lemma count_pairs_no_label (i j : Z) (labels preds : list Z) :
  (forall t, In t labels -> t <> i) -> count_pairs i j labels preds = 0%Z.
Proof.
  intros Hno. unfold count_pairs. change 0%Z with (Z.of_nat 0). f_equal.
  revert preds. induction labels as [|t labels IH]; intros [|p preds]; simpl;
    try reflexivity.
  destruct (Z.eqb_spec t i) as [E|_].
  - exfalso. apply (Hno t); [now left|exact E].
  - simpl. apply IH. intros u Hu. apply Hno. now right.
Qed.

(** X12: A class without a sample gives a row of division by zero: when no
    label equals the class [i], row [i] of the matrix drawn is NaN twice,
    the threshold of the text colours is NaN too, and every number of the
    figure is written in black. *)
Theorem empty_class_row_is_nan :
  forall (D : Type) (cnn : network D) (input_data : D)
         (input_labels : ndarray Z) (fig : figure) (i : nat),
    plot_confusion_matrix cnn input_data input_labels = Ok fig ->
    i < 2 ->
    (forall t, In t (data input_labels) -> t <> Z.of_nat i) ->
    nth_error (rows (matshow fig)) i = Some [NaN; NaN]
    /\ Forall (fun t => text_color t = "black"%string) (texts fig).
Proof.
  intros D cnn input_data input_labels fig i Hplot Hi Hno.
  destruct (@plot_confusion_matrix_inv D cnn input_data input_labels fig Hplot)
    as [cm [Hcm Hrender]].
  rewrite (@confusion_matrix_inv _ _ cm Hcm) in Hrender.
  destruct i as [|[|i]]; [| |lia].
  - rewrite !(@count_pairs_no_label 0 _ _ _ Hno) in Hrender.
    unfold div_by_row_sums, amap, rows in Hrender.
    cbn [shape data map seq chunk firstn skipn Nat.mul Nat.add concat app] in Hrender.
    change (fdiv (of_Z 0) (sum_list [of_Z 0; of_Z 0])) with NaN in Hrender.
    erewrite render_2x2 in Hrender by (symmetry; apply thresh_nan; auto).
    injection Hrender as <-. split; [reflexivity|].
    repeat constructor; cbn [text_color]; now rewrite fltb_nan_r.
  - rewrite !(@count_pairs_no_label 1 _ _ _ Hno) in Hrender.
    unfold div_by_row_sums, amap, rows in Hrender.
    cbn [shape data map seq chunk firstn skipn Nat.mul Nat.add concat app] in Hrender.
    change (fdiv (of_Z 0) (sum_list [of_Z 0; of_Z 0])) with NaN in Hrender.
    erewrite render_2x2 in Hrender by (symmetry; apply thresh_nan; auto).
    injection Hrender as <-. split; [reflexivity|].
    repeat constructor; cbn [text_color]; now rewrite fltb_nan_r.
Qed.

Lemma empty_class_row_is_nan_witness :
  exists fig,
    plot_confusion_matrix Samples.cnn0 tt MoreSamples.labels_no_flare = Ok fig
    /\ nth_error (rows (matshow fig)) 1 = Some [NaN; NaN]
    /\ Forall (fun t => text_color t = "black"%string) (texts fig).
Proof.
  destruct (plot_confusion_matrix Samples.cnn0 tt MoreSamples.labels_no_flare)
    as [fig|e] eqn:Hplot; [|vm_compute in Hplot; discriminate Hplot].
  exists fig. split; [reflexivity|].
  apply (@empty_class_row_is_nan unit Samples.cnn0 tt MoreSamples.labels_no_flare
           fig 1 Hplot (le_n 2)).
  intros t Ht. simpl in Ht.
  destruct Ht as [<-|[<-|[<-|[<-|[]]]]]; discriminate.
Defined.

(** X13: The ticks of the figure against the classes of the matrix: tick 0 of
    both axes is labelled 'Flare' and tick 1 'No Flare', while row and column
    0 of the matrix count the samples whose label, or whose prediction, is 0
    and row and column 1 those with 1, the class that the example cell
    titles 'Flare'. *)
Theorem tick_labels_against_classes :
  forall (D : Type) (cnn : network D) (input_data : D)
         (input_labels : ndarray Z) (fig : figure),
    plot_confusion_matrix cnn input_data input_labels = Ok fig ->
    (yticks fig = [0; 1] /\ yticklabels fig = ["Flare"; "No Flare"]%string)
    /\ (xticks fig = [0; 1] /\ xticklabels fig = ["Flare"; "No Flare"]%string)
    /\ Labels.titles 1 = Some "Flare"%string
    /\ Labels.titles 0 = Some "Non-flare"%string
    /\ exists cm,
         confusion_matrix input_labels (binarize (predict cnn input_data)) = Ok cm
         /\ matshow fig = div_by_row_sums (amap of_Z cm)
         /\ forall i j, i < 2 -> j < 2 ->
              getitem2 cm i j
              = Ok (count_where
                      (fun t p => (t =? Z.of_nat i)%Z
                                  && (binarize1 p =? Z.of_nat j)%Z)
                      (data input_labels) (data (predict cnn input_data))).
Proof.
  intros D cnn input_data input_labels fig Hplot.
  destruct (@plot_confusion_matrix_inv D cnn input_data input_labels fig Hplot)
    as [cm [Hcm Hrender]].
  pose proof (@render_matshow _ fig Hrender) as Hshow.
  assert (Hticks : (yticks fig = [0; 1]
                    /\ yticklabels fig = ["Flare"; "No Flare"]%string)
                   /\ (xticks fig = [0; 1]
                       /\ xticklabels fig = ["Flare"; "No Flare"]%string)).
  { revert Hrender. unfold render.
    destruct (np_max _); [|discriminate]. simpl.
    destruct (shape0 _); [|discriminate]. simpl.
    destruct (for_each _ _ _) as [[u|e] ts]; [|discriminate].
    intros H. injection H as <-. repeat split. }
  split; [exact (proj1 Hticks)|]. split; [exact (proj2 Hticks)|].
  split; [reflexivity|]. split; [reflexivity|].
  exists cm. split; [exact Hcm|]. split; [exact Hshow|].
  rewrite (@confusion_matrix_inv _ _ cm Hcm). unfold binarize, amap; simpl.
  intros i j Hi Hj.
  destruct i as [|[|i]]; [| |lia]; destruct j as [|[|j]]; try lia;
    unfold getitem2; simpl; now rewrite count_pairs_binarize.
Qed.

Lemma tick_labels_against_classes_witness :
  exists fig,
    plot_confusion_matrix Samples.cnn0 tt Samples.labels0 = Ok fig
    /\ nth_error (yticklabels fig) 1 = Some "No Flare"%string
    /\ Labels.titles 1 = Some "Flare"%string.
Proof.
  destruct (plot_confusion_matrix Samples.cnn0 tt Samples.labels0) as [fig|e] eqn:Hplot;
    [|vm_compute in Hplot; discriminate Hplot].
  exists fig. split; [reflexivity|].
  destruct (@tick_labels_against_classes unit Samples.cnn0 tt Samples.labels0 fig Hplot)
    as [[_ Hy] [_ [Ht _]]].
  split; [now rewrite Hy|exact Ht].
Defined.

End ConfusionMatrixMore.

(** ** The target loop and the quality check, further *)

Section TargetsMore.
Import Py Np Classify.
Variable search_lightcurve : string -> string -> list Z -> string -> result pyval.
Variable download_all : pyval -> result pyval.

Abbreviation downloaded := (Targets.downloaded search_lightcurve download_all).

Lemma download_loop (names : list string) :
  (forall name, In name names -> exists v, downloaded name v) ->
  forall ns,
    exists vs ns',
      for_each names (download_body search_lightcurve download_all) ns = (Ok tt, ns')
      /\ lcs ns' = lcs ns ++ vs
      /\ stdout ns' = stdout ns
      /\ Forall2 downloaded names vs.
Proof.
  induction names as [|name names IH]; intros Hall ns.
  - exists [], ns. simpl. rewrite app_nil_r. repeat split. constructor.
  - destruct (Hall name (or_introl eq_refl)) as [v [found [Hs Hd]]].
    simpl. unfold sbind at 1. unfold download_body at 1.
    unfold sbind, lift, set_lc, append_lcs. rewrite Hs, Hd. cbn [lcs lc stdout].
    destruct (IH (fun n Hn => Hall n (or_intror Hn))
                 {| lcs := lcs ns ++ [v]; lc := v; stdout := stdout ns |})
      as [vs [ns' [Hrun [Hl [Hout Hvs]]]]].
    exists (v :: vs), ns'. split; [exact Hrun|]. split.
    + rewrite Hl. simpl. now rewrite <- app_assoc.
    + split; [exact Hout|]. constructor; [|exact Hvs]. now exists found.
Qed.

(** X14: When every search and download returns, the cell leaves in [lcs]
    exactly one download per target, in the order of [ticids]: eight
    entries, whatever [lcs] held before, so that running the cell again
    does not pile them up; nothing is printed. *)
Theorem download_targets_in_order :
  forall ns : namespace,
    (forall name, In name ticids -> exists v, downloaded name v) ->
    exists vs,
      fst (cell_download_targets search_lightcurve download_all ns) = Ok tt
      /\ lcs (snd (cell_download_targets search_lightcurve download_all ns)) = vs
      /\ length vs = 8
      /\ Forall2 downloaded ticids vs
      /\ stdout (snd (cell_download_targets search_lightcurve download_all ns))
         = stdout ns.
Proof.
  intros ns Hall. unfold cell_download_targets.
  destruct (@download_loop ticids Hall
              {| lcs := []; lc := lc ns; stdout := stdout ns |})
    as [vs [ns' [Hrun [Hl [Hout Hvs]]]]].
  exists vs. rewrite Hrun. simpl in *.
  split; [reflexivity|]. split; [exact Hl|]. split.
  - apply Forall2_length in Hvs. now rewrite <- Hvs.
  - split; [exact Hvs|exact Hout].
Qed.

(** X15: When the search or the download of a target raises, the loop stops
    there with that exception: [lcs] holds the downloads of the targets
    before it, and the targets after it are not tried. *)
Theorem download_targets_stop_at_failure :
  forall (ns : namespace) (before after : list string) (name : string) (e : exn),
    ticids = before ++ name :: after ->
    (forall n, In n before -> exists v, downloaded n v) ->
    (search_lightcurve ("TIC" ++ name) "TESS" sectors "SPOC" = Raise e
     \/ exists found,
          search_lightcurve ("TIC" ++ name) "TESS" sectors "SPOC" = Ok found
          /\ download_all found = Raise e) ->
    exists vs,
      fst (cell_download_targets search_lightcurve download_all ns) = Raise e
      /\ lcs (snd (cell_download_targets search_lightcurve download_all ns)) = vs
      /\ Forall2 downloaded before vs.
Proof.
  intros ns before after name e Hsplit Hbefore Hfail.
  unfold cell_download_targets. rewrite Hsplit, for_each_app.
  destruct (@download_loop before Hbefore
              {| lcs := []; lc := lc ns; stdout := stdout ns |})
    as [vs [ns' [Hrun [Hl [_ Hvs]]]]].
  rewrite Hrun. exists vs. simpl in Hl.
  assert (Hstep : exists ns2,
            for_each (name :: after)
              (download_body search_lightcurve download_all) ns' = (Raise e, ns2)
            /\ lcs ns2 = lcs ns').
  { simpl. unfold sbind at 1. unfold download_body, sbind, lift, set_lc.
    destruct Hfail as [Hs | [found [Hs Hd]]].
    - rewrite Hs. eexists. split; reflexivity.
    - rewrite Hs, Hd. eexists. split; reflexivity. }
  destruct Hstep as [ns2 [Hstep Hl2]]. rewrite Hstep. simpl.
  split; [reflexivity|]. split; [congruence|exact Hvs].
Qed.

End TargetsMore.

Lemma download_targets_in_order_witness :
  exists vs,
    Classify.lcs
      (snd (Classify.cell_download_targets
              (fun target _ _ _ => Py.Ok (Classify.PSearchResult [target]))
              (fun _ => Py.Ok (Classify.PCollection []))
              Samples.namespace0)) = vs
    /\ length vs = 8.
Proof.
  destruct (@download_targets_in_order
              (fun target _ _ _ => Py.Ok (Classify.PSearchResult [target]))
              (fun _ => Py.Ok (Classify.PCollection []))
              Samples.namespace0)
    as [vs [_ [Hl [Hn _]]]].
  - intros name _. eexists. eexists. split; reflexivity.
  - exists vs. split; assumption.
Defined.

Lemma download_targets_stop_at_failure_witness :
  exists vs,
    fst (Classify.cell_download_targets
           (fun target _ _ _ =>
              if String.eqb target "TIC139754153"
              then Py.Raise (Py.OtherError "SearchError")
              else Py.Ok (Classify.PSearchResult [target]))
           (fun _ => Py.Ok (Classify.PCollection []))
           Samples.namespace0)
    = Py.Raise (Py.OtherError "SearchError")
    /\ Classify.lcs
         (snd (Classify.cell_download_targets
                 (fun target _ _ _ =>
                    if String.eqb target "TIC139754153"
                    then Py.Raise (Py.OtherError "SearchError")
                    else Py.Ok (Classify.PSearchResult [target]))
                 (fun _ => Py.Ok (Classify.PCollection []))
                 Samples.namespace0)) = vs
    /\ length vs = 2.
Proof.
  destruct (@download_targets_stop_at_failure
              (fun target _ _ _ =>
                 if String.eqb target "TIC139754153"
                 then Py.Raise (Py.OtherError "SearchError")
                 else Py.Ok (Classify.PSearchResult [target]))
              (fun _ => Py.Ok (Classify.PCollection []))
              Samples.namespace0
              ["120461526"; "278779899"]%string
              ["273418879"; "52121469"; "188580272"; "394015919"; "206544316"]%string
              "139754153"%string (Py.OtherError "SearchError") eq_refl)
    as [vs [He [Hl Hvs]]].
  - intros n [<-|[<-|[]]]; eexists; eexists; split; reflexivity.
  - left. reflexivity.
  - exists vs. split; [exact He|]. split; [exact Hl|].
    apply Forall2_length in Hvs. now rewrite <- Hvs.
Defined.

Section QualityCheckMore.
Import Py Np Classify.

(** X16: A download that came back as [None] or as an empty collection stops
    the quality check: [len(None)] raises TypeError, an empty collection has
    no [flux] (AttributeError).  The collections before it have been checked
    and reported; those after it are not looked at, so nothing is printed
    for them, non-finite or not. *)
Theorem quality_check_stops_at_missing_download :
  forall (ns : namespace) (checked rest : list pyval) (bad : pyval),
    lcs ns = checked ++ bad :: rest ->
    Forall non_empty_collection checked ->
    bad = PNone \/ bad = PCollection [] ->
    exists outs,
      fst (cell_quality_checks ns)
      = Raise (match bad with PNone => TypeError | _ => AttributeError end)
      /\ stdout (snd (cell_quality_checks ns)) = stdout ns ++ concat outs
      /\ Forall2 warns_iff_non_finite checked outs
      /\ lcs (snd (cell_quality_checks ns)) = lcs ns.
Proof.
  intros ns checked rest bad Hlcs Hne Hbad. unfold cell_quality_checks.
  destruct (quality_loop_run Hne ns) as [outs [ns1 [Hrun [Hl [Hout Hall]]]]].
  exists outs.
  assert (E : for_each (lcs ns) quality_body ns
              = for_each (bad :: rest) quality_body ns1).
  { rewrite Hlcs at 1. rewrite for_each_app. now rewrite Hrun. }
  rewrite E.
  assert (Hstep : exists ns2,
            for_each (bad :: rest) quality_body ns1
            = (Raise (match bad with PNone => TypeError | _ => AttributeError end),
               ns2)
            /\ lcs ns2 = lcs ns1 /\ stdout ns2 = stdout ns1).
  { simpl. unfold sbind at 1.
    unfold quality_body, pick_first, sbind, set_lc, get_lc, lift.
    destruct Hbad as [-> | ->]; simpl; eexists; repeat split. }
  destruct Hstep as [ns2 [Hstep [Hl2 Hout2]]]. rewrite Hstep. simpl.
  split; [reflexivity|]. split; [congruence|]. split; [exact Hall|congruence].
Qed.

Lemma quality_check_stops_at_missing_download_witness :
  fst (cell_quality_checks MoreSamples.namespace_none) = Raise TypeError
  /\ exists outs,
       stdout (snd (cell_quality_checks MoreSamples.namespace_none)) = concat outs
       /\ length outs = 1.
Proof.
  destruct (@quality_check_stops_at_missing_download MoreSamples.namespace_none
              [PCollection [Samples.curve [Finite 1; NaN]]]
              [PCollection [Samples.curve [PosInf]]] PNone eq_refl)
    as [outs [He [Hout [Hall _]]]].
  - repeat constructor. eexists. eexists. reflexivity.
  - now left.
  - split; [exact He|]. exists outs. split; [exact Hout|].
    apply Forall2_length in Hall. now rewrite <- Hall.
Defined.

End QualityCheckMore.

(** ** The archive cells *)

Section ArchiveFacts.
Import Py Fits Archive.

Lemma find_after_close (l : list (handle * string)) (h : handle) :
  find (fun e => fst e =? h) (filter (fun e => negb (fst e =? h)) l) = None.
Proof.
  induction l as [|e l IH]; simpl; [reflexivity|].
  destruct (fst e =? h) eqn:E; simpl; [exact IH|]. now rewrite E.
Qed.

Lemma path_of_new (k : kernel) (p : string) :
  kernel_ok k ->
  path_of (created k)
    {| open_handles := open_handles k ++ [(created k, p)];
       created := S (created k) |} = Some p.
Proof.
  intros Hk. unfold path_of. simpl.
  now rewrite (@path_of_last (open_handles k) (created k) p [] Hk).
Qed.



End ArchiveFacts.

(** ** The network *)

Section NetworkFacts.
Import Py Np Network.

Lemma pooled_length (len : nat) : 2 <= len -> (len - 2) / 2 + 1 = len / 2.
Proof.
  intros H. replace len with ((len - 2) + 1 * 2) at 2 by lia.
  now rewrite Nat.div_add by lia.
Qed.

(** X18: The network as the notebook stacks it: for training segments of at
    least four cadences the layers fit together and end in a single output;
    the first convolution has 7 filters of width 16 and the second 3 filters
    of width 64, the flattened width is 3 times a quarter of the cadences,
    and the weights add up accordingly. *)
Theorem cnn_shape_and_weights :
  forall (train_data : ndarray npfloat) (n cadences : nat) (sh : list nat),
    shape train_data = n :: cadences :: sh ->
    4 <= cadences ->
    build_cnn train_data
    = Ok ([1],
          (16 * 1 * 7 + 7) + (64 * 7 * 3 + 3)
          + (3 * (cadences / 4) * 128 + 128) + (128 * 1 + 1))
    /\ build [Convolution1D 7 filter1; MaxPooling1D 2; Dropout;
              Convolution1D 3 filter2; MaxPooling1D 2; Dropout; Flatten]
             [cadences; 1] 0
       = Ok ([3 * (cadences / 4)], (16 * 1 * 7 + 7) + (64 * 7 * 3 + 3)).
Proof.
  intros train_data n cadences sh Hsh Hc.
  assert (H2 : (2 <=? cadences) = true) by (apply Nat.leb_le; lia).
  assert (H4 : (2 <=? cadences / 2) = true).
  { apply Nat.leb_le. change 2 with (4 / 2) at 1.
    apply Nat.Div0.div_le_mono. exact Hc. }
  assert (Hq : (cadences / 2 - 2) / 2 + 1 = cadences / 4).
  { rewrite pooled_length by (apply Nat.leb_le; exact H4).
    rewrite Nat.Div0.div_div. reflexivity. }
  unfold build_cnn, input_shape. rewrite Hsh.
  unfold cnn_layers, filter1, filter2, dense.
  cbn [bind build out_shape n_params]. change (0 <? 2) with true. cbn [andb].
  rewrite H2. cbn [bind build out_shape n_params].
  rewrite (pooled_length (proj1 (Nat.leb_le _ _) H2)).
  rewrite H4. cbn [bind size_of fold_right]. rewrite Hq.
  split.
  - apply f_equal. apply f_equal2; [reflexivity|lia].
  - apply f_equal. apply f_equal2; [|lia].
    apply (f_equal (fun x => [x])). lia.
Qed.

Lemma cnn_shape_and_weights_witness :
  4 <= 200
  /\ build_cnn MoreSamples.train_shape
     = Ok ([1], 119 + 1347 + (150 * 128 + 128) + 129).
Proof.
  assert (H : 4 <= 200) by lia.
  split; [exact H|].
  exact (proj1 (@cnn_shape_and_weights MoreSamples.train_shape 500 200 [1]
                  eq_refl H)).
Defined.

End NetworkFacts.
